(** * BigscreenPlatform: the idle-timeout skill of [src/__init__.py]

    A shallow embedding of the [BigscreenPlatform] class and the properties
    of its idle timer, of its page handlers and of its close handlers.

    Conventions of the embedding.
    - A message payload ([message.data]) is a Python dict with string keys:
      a [gmap string PyVal].
    - The attributes of the skill object are the record [BigscreenPlatform];
      what the skill reaches through its host (the monotonic clock, the event
      scheduler, the message bus) is the rest of the record [World].
    - A method is a computation in the monad [M]: it threads the [World] and
      either returns or raises a Python exception.  State written before a
      [raise] stays written, as in Python.
    - Readings of [time.monotonic()] are exact rationals, in seconds.  A
      reading does not advance the clock; [time.sleep] and the environment
      step [elapse] do.
    - The bus client and the GUI client of the host are not part of the
      repository: [initialize] and [shutdown] take the host as a parameter
      ([Bus]), and what is proved of them holds on every host.
    - [self.idle_lock] makes [start_idle_event] a critical section; methods
      run one at a time here, so the lock carries no data.  Only the last
      section lets a handler run inside the sleep of [start_idle_event],
      which the lock does not prevent.
    - Calls of [self.log] have no effect on the state and are left out; the
      place of each is marked in a comment. *)

From Stdlib Require Import QArith Lqa.
From stdpp Require Import base strings list gmap.

Local Open Scope string_scope.
Local Open Scope list_scope.

(** ** Python values carried by messages *)

#[warnings="-register-all"]
Inductive PyVal : Type :=
| PNone
| PBool (b : bool)
| PInt (n : Z)
| PFloat (q : Q)
| PStr (s : string)
| PList (l : list PyVal)
| PDict (d : list (string * PyVal)).

Inductive PyExn : Type :=
| KeyError (key : string)
| TypeError (what : string).

(** [bool(v)] *)
Definition py_truthy (v : PyVal) : bool :=
  match v with
  | PNone => false
  | PBool b => b
  | PInt n => negb (Z.eqb n 0)
  | PFloat q => negb (Qeq_bool q 0)
  | PStr s => negb (String.eqb s "")
  | PList l => match l with [] => false | _ => true end
  | PDict d => match d with [] => false | _ => true end
  end.

(** [isinstance(v, bool)] *)
Definition isinstance_bool (v : PyVal) : bool :=
  match v with PBool _ => true | _ => false end.

(** [isinstance(v, int)]: [bool] is a subclass of [int]. *)
Definition isinstance_int (v : PyVal) : bool :=
  match v with PBool _ | PInt _ => true | _ => false end.

(** [v is True] and [v is False]: identity with the two singletons. *)
Definition is_True (v : PyVal) : bool :=
  match v with PBool true => true | _ => false end.

Definition is_False (v : PyVal) : bool :=
  match v with PBool false => true | _ => false end.

(** [bool((v, bool))]: a tuple of two elements is never empty. *)
Definition pair_truthy (v : PyVal) : bool := true.

(** [needle in hay] on two strings: substring test. *)
Fixpoint str_contains (needle hay : string) : bool :=
  String.prefix needle hay ||
  match hay with
  | EmptyString => false
  | String _ rest => str_contains needle rest
  end.

(** [v == needle] for a string [needle]. *)
Definition py_eq_str (needle : string) (v : PyVal) : bool :=
  match v with PStr s => String.eqb s needle | _ => false end.

(** [needle in v]: substring of a string, element of a list, key of a dict;
    a [TypeError] on what is not a container. *)
Definition py_in (needle : string) (v : PyVal) : PyExn + bool :=
  match v with
  | PStr s => inr (str_contains needle s)
  | PList l => inr (existsb (py_eq_str needle) l)
  | PDict d => inr (existsb (fun kv => String.eqb (fst kv) needle) d)
  | PNone | PBool _ | PInt _ | PFloat _ =>
      inl (TypeError "argument is not iterable")
  end.

(** ** Messages *)

Record Message : Type := mkMessage {
  msg_type : string;
  msg_data : gmap string PyVal
}.

(** [data.get(key)] and [data.get(key, dflt)] *)
Definition dict_get (d : gmap string PyVal) (key : string) : PyVal :=
  default PNone (d !! key).

Definition dict_get_default (d : gmap string PyVal) (key : string)
    (dflt : PyVal) : PyVal :=
  default dflt (d !! key).

(** ** The skill object and its host *)

(** The methods that are handed to the bus and to the scheduler. *)
Inductive Handler : Type :=
| h_close_window_by_event
| h_close_window_by_force
| h_on_gui_page_show
| h_on_gui_page_interaction
| h_close_current_window.

Global Instance Handler_eq_dec : EqDecision Handler.
Proof. solve_decision. Defined.

(** Attributes set by [__init__]. *)
Record BigscreenPlatform : Type := mkSkill {
  override_idle : option (Message * Q);
  interaction_without_idle : bool;
  interaction_skill_id : PyVal;
  idle_next : Q;
  override_set_time : Q;
  has_show_page : bool
}.

(** An entry of the host's event scheduler, made by [schedule_event]:
    [sch_when] is the delay in seconds, [sch_at] the clock at the call. *)
Record Scheduled : Type := mkScheduled {
  sch_name : string;
  sch_handler : Handler;
  sch_when : Z;
  sch_at : Q;
  sch_data : gmap string PyVal
}.

(** The calls the skill makes on the clients of its host: the three ways
    [initialize] registers a handler, and the [bus.remove] of [shutdown]. *)
Inductive Api : Type :=
| GuiRegisterHandler
| AddEvent
| BusOn
| BusRemove.

Global Instance Api_eq_dec : EqDecision Api.
Proof. solve_decision. Defined.

Record Listener : Type := mkListener {
  l_via : Api;
  l_event : string;
  l_handler : Handler
}.

Global Instance Listener_eq_dec : EqDecision Listener.
Proof. solve_decision. Defined.

Record World : Type := mkWorld {
  self : BigscreenPlatform;
  clock : Q;
  scheduled : list Scheduled;
  emitted : list Message;
  listeners : list Listener
}.

(** [__init__], at clock reading [t0]. *)
Definition init_skill (t0 : Q) : BigscreenPlatform :=
  {| override_idle := None;
     interaction_without_idle := true;
     interaction_skill_id := PNone;
     idle_next := 0;
     override_set_time := t0;
     has_show_page := false |}.

Definition init_world (t0 : Q) : World :=
  {| self := init_skill t0;
     clock := t0;
     scheduled := [];
     emitted := [];
     listeners := [] |}.

(** Field updates. *)
Definition with_override_idle (v : option (Message * Q))
    (k : BigscreenPlatform) : BigscreenPlatform :=
  mkSkill v (interaction_without_idle k) (interaction_skill_id k)
          (idle_next k) (override_set_time k) (has_show_page k).

Definition with_interaction_without_idle (v : bool)
    (k : BigscreenPlatform) : BigscreenPlatform :=
  mkSkill (override_idle k) v (interaction_skill_id k)
          (idle_next k) (override_set_time k) (has_show_page k).

Definition with_interaction_skill_id (v : PyVal)
    (k : BigscreenPlatform) : BigscreenPlatform :=
  mkSkill (override_idle k) (interaction_without_idle k) v
          (idle_next k) (override_set_time k) (has_show_page k).

Definition with_idle_next (v : Q)
    (k : BigscreenPlatform) : BigscreenPlatform :=
  mkSkill (override_idle k) (interaction_without_idle k)
          (interaction_skill_id k) v (override_set_time k) (has_show_page k).

Definition with_override_set_time (v : Q)
    (k : BigscreenPlatform) : BigscreenPlatform :=
  mkSkill (override_idle k) (interaction_without_idle k)
          (interaction_skill_id k) (idle_next k) v (has_show_page k).

Definition with_has_show_page (v : bool)
    (k : BigscreenPlatform) : BigscreenPlatform :=
  mkSkill (override_idle k) (interaction_without_idle k)
          (interaction_skill_id k) (idle_next k) (override_set_time k) v.

Definition with_self (f : BigscreenPlatform -> BigscreenPlatform)
    (w : World) : World :=
  mkWorld (f (self w)) (clock w) (scheduled w) (emitted w) (listeners w).

Definition with_clock (v : Q) (w : World) : World :=
  mkWorld (self w) v (scheduled w) (emitted w) (listeners w).

Definition with_scheduled (v : list Scheduled) (w : World) : World :=
  mkWorld (self w) (clock w) v (emitted w) (listeners w).

Definition with_emitted (v : list Message) (w : World) : World :=
  mkWorld (self w) (clock w) (scheduled w) v (listeners w).

Definition with_listeners (v : list Listener) (w : World) : World :=
  mkWorld (self w) (clock w) (scheduled w) (emitted w) v.

(** ** The monad of methods: state and exceptions *)

Inductive Outcome (A : Type) : Type :=
| Return (a : A)
| Raise (e : PyExn).

Arguments Return {A} a.
Arguments Raise {A} e.

Definition M (A : Type) : Type := World -> Outcome A * World.

Definition ret {A} (a : A) : M A := fun w => (Return a, w).

Definition raise {A} (e : PyExn) : M A := fun w => (Raise e, w).

Definition bind {A B} (m : M A) (f : A -> M B) : M B :=
  fun w =>
    match m w with
    | (Return a, w') => f a w'
    | (Raise e, w') => (Raise e, w')
    end.

(** [try: body except Exception as e: handler(e)] *)
Definition try_except {A} (body : M A) (handler : PyExn -> M A) : M A :=
  fun w =>
    match body w with
    | (Return a, w') => (Return a, w')
    | (Raise e, w') => handler e w'
    end.

Declare Scope py_scope.
Delimit Scope py_scope with py.
Notation "x <- m ;; k" := (bind m (fun x => k))
  (at level 100, m at next level, right associativity) : py_scope.
Notation "m ;; k" := (bind m (fun _ => k))
  (at level 100, right associativity) : py_scope.
Local Open Scope py_scope.

Definition get_self {A} (f : BigscreenPlatform -> A) : M A :=
  fun w => (Return (f (self w)), w).

Definition set_self (f : BigscreenPlatform -> BigscreenPlatform) : M unit :=
  fun w => (Return tt, with_self f w).

(** The final world and the outcome of running a method. *)
Definition exec {A} (m : M A) (w : World) : World := snd (m w).
Definition outcome {A} (m : M A) (w : World) : Outcome A := fst (m w).

(** [data[key]] *)
Definition dict_item (d : gmap string PyVal) (key : string) : M PyVal :=
  match d !! key with
  | Some v => ret v
  | None => raise (KeyError key)
  end.

Definition lift_in (r : PyExn + bool) : M bool :=
  match r with
  | inl e => raise e
  | inr b => ret b
  end.

(** ** The host: clock, scheduler, bus *)

(** [time.monotonic()].  A reading takes no time: two readings with nothing
    in between agree, where on the machine the later one may be larger. *)
Definition monotonic : M Q := fun w => (Return (clock w), w).

(** [time.sleep(d)] *)
Definition sleep (d : Q) : M unit :=
  fun w => (Return tt, with_clock (clock w + d)%Q w).

(** Time passing between two methods. *)
Definition elapse (d : Q) (w : World) : World :=
  with_clock (clock w + d)%Q w.

(** [x < y] on clock readings. *)
Definition Qltb (x y : Q) : bool := negb (Qle_bool y x).

(** [self.cancel_scheduled_event(name)]: every entry of that name goes. *)
Definition cancel_scheduled_event (name : string) : M unit :=
  fun w =>
    (Return tt,
     with_scheduled (filter (fun e => sch_name e <> name) (scheduled w)) w).

(** [self.schedule_event(handler, when, name=name, data=data)].  The
    scheduler of the host is taken to accept the delay.  It refuses a
    negative one, and [start_idle_event] then logs the exception and leaves
    nothing scheduled; the handlers only ever ask for thirty seconds. *)
Definition schedule_event (handler : Handler) (when : Z) (name : string)
    (data : gmap string PyVal) : M unit :=
  fun w =>
    (Return tt,
     with_scheduled
       (scheduled w ++ [mkScheduled name handler when (clock w) data]) w).

(** [self.bus.emit(msg)] *)
Definition bus_emit (msg : Message) : M unit :=
  fun w => (Return tt, with_emitted (emitted w ++ [msg]) w).

(** The bus client and the GUI client of the host are not part of the
    repository.  A host is a parameter of the methods that call it: for
    each of the four calls, what the call does to the host's table of
    listeners and whether it returns or raises. *)
Definition HostCall : Type :=
  string -> Handler -> list Listener -> Outcome unit * list Listener.

Record Bus : Type := mkBus {
  gui_register_handler_of : HostCall;
  add_event_of : HostCall;
  bus_on_of : HostCall;
  bus_remove_of : HostCall
}.

Definition host_call (call : HostCall) (event : string) (h : Handler)
    : M unit :=
  fun w =>
    (fst (call event h (listeners w)),
     with_listeners (snd (call event h (listeners w))) w).

(** [self.gui.register_handler(event, h)], [self.add_event(event, h)],
    [self.bus.on(event, h)] and [self.bus.remove(event, h)] on host [B]. *)
Definition gui_register_handler (B : Bus) : string -> Handler -> M unit :=
  host_call (gui_register_handler_of B).

Definition add_event (B : Bus) : string -> Handler -> M unit :=
  host_call (add_event_of B).

Definition bus_on (B : Bus) : string -> Handler -> M unit :=
  host_call (bus_on_of B).

Definition bus_remove (B : Bus) : string -> Handler -> M unit :=
  host_call (bus_remove_of B).

(** A host that only writes down the calls made on it, in order. *)
Definition record_call (via : Api) : HostCall :=
  fun event h table => (Return tt, table ++ [mkListener via event h]).

Definition recording_bus : Bus :=
  mkBus (record_call GuiRegisterHandler) (record_call AddEvent)
        (record_call BusOn) (record_call BusRemove).

(** A host after the event emitter of the bus client, which keeps one
    listener for each function handed to [bus.on] and raises [KeyError] when
    asked to remove one it does not hold.  [add_event] wraps the handler
    anew at every call; a handler given to the GUI client waits for GUI
    events, not for bus messages. *)
Fixpoint remove_first (x : Listener) (l : list Listener) : list Listener :=
  match l with
  | [] => []
  | y :: l' => if decide (x = y) then l' else y :: remove_first x l'
  end.

Definition handler_name (h : Handler) : string :=
  match h with
  | h_close_window_by_event => "close_window_by_event"
  | h_close_window_by_force => "close_window_by_force"
  | h_on_gui_page_show => "on_gui_page_show"
  | h_on_gui_page_interaction => "on_gui_page_interaction"
  | h_close_current_window => "close_current_window"
  end.

Definition emitter_on : HostCall :=
  fun event h table =>
    if decide (mkListener BusOn event h ∈ table) then (Return tt, table)
    else (Return tt, table ++ [mkListener BusOn event h]).

Definition emitter_remove : HostCall :=
  fun event h table =>
    if decide (mkListener BusOn event h ∈ table)
    then (Return tt, remove_first (mkListener BusOn event h) table)
    else (Raise (KeyError (handler_name h)), table).

Definition emitter_bus : Bus :=
  mkBus (record_call GuiRegisterHandler) (record_call AddEvent)
        emitter_on emitter_remove.

(** The outbound message of all three close paths. *)
Definition close_event (skill_id : PyVal) : Message :=
  mkMessage "screen.close.idle.event" {[ "skill_idle_event_id" := skill_id ]}.

(** ** Methods of the skill *)

(** [override(self, message=None)] *)
Definition override (message : option Message) : M unit :=
  t <- monotonic ;;
  set_self (with_override_set_time t) ;;
  match message with
  | Some m =>
      t' <- monotonic ;;
      set_self (with_override_idle (Some (m, t')))
  | None => ret tt
  end.

(** [cancel_idle_event(self)] *)
Definition cancel_idle_event : M unit :=
  set_self (with_idle_next 0) ;;
  cancel_scheduled_event "IdleCheck".

(** [start_idle_event(self, offset=60, weak=False, skid=None)].  Every
    caller passes [offset] and [skid]; [offset] is an integer at every call
    site, so [int(offset)] is [offset]. *)
Definition start_idle_event (offset : Z) (weak : bool) (skid : PyVal)
    : M unit :=
  now <- monotonic ;;
  next <- get_self idle_next ;;
  if Qltb (now + inject_Z offset) next then
    (* log: No update, before next time *)
    ret tt
  else
    (* log: Starting idle event *)
    try_except
      ((if negb weak
        then (now' <- monotonic ;;
              set_self (with_idle_next (now' + inject_Z offset)))
        else ret tt) ;;
       cancel_scheduled_event "IdleCheck" ;;
       sleep (1 # 2) ;;
       schedule_event h_close_current_window offset "IdleCheck"
                      {[ "skill_id" := skid ]}
       (* log: Closing screen in offset seconds *))
      (fun e => (* log.exception *) ret tt).

(** The critical section of [start_idle_event] once the guard has let the
    call through, in the two halves that [time.sleep(0.5)] separates: the
    lock is held across the sleep, but [cancel_idle_event] and the handlers
    take no lock and can run in between. *)
Definition start_idle_event_before_sleep (offset : Z) (weak : bool) : M unit :=
  (if negb weak
   then (now' <- monotonic ;;
         set_self (with_idle_next (now' + inject_Z offset)))
   else ret tt) ;;
  cancel_scheduled_event "IdleCheck".

Definition start_idle_event_after_sleep (offset : Z) (skid : PyVal) : M unit :=
  schedule_event h_close_current_window offset "IdleCheck"
                 {[ "skill_id" := skid ]}.

(** [close_current_window(self, message)]: the action the timer runs. *)
Definition close_current_window (message : Message) : M unit :=
  flag <- get_self interaction_without_idle ;;
  if negb flag then
    bus_emit (close_event (dict_get (msg_data message) "skill_id"))
  else ret tt.

(** [close_window_by_event(self, message)] *)
Definition close_window_by_event (message : Message) : M unit :=
  set_self (with_interaction_without_idle false) ;;
  sid <- get_self interaction_skill_id ;;
  bus_emit (close_event sid).

(** [close_window_by_force(self, message)] *)
Definition close_window_by_force (message : Message) : M unit :=
  skill_id_from_message <- dict_item (msg_data message) "skill_id" ;;
  bus_emit (close_event skill_id_from_message).

(** [on_gui_page_interaction(self, message)] *)
Definition on_gui_page_interaction (message : Message) : M unit :=
  let skill_id := dict_get (msg_data message) "skill_id" in
  set_self (with_interaction_skill_id skill_id) ;;
  flag <- get_self interaction_without_idle ;;
  if negb flag then
    (* log: Resetting Timeout Counter To 30 Seconds *)
    start_idle_event 30 false skill_id
  else ret tt.

(** The integer an [int] instance stands for ([True] is 1, [False] is 0). *)
Definition int_value (v : PyVal) : Z :=
  match v with
  | PInt n => n
  | PBool b => Z.b2z b
  | _ => 0
  end.

(** The test of the second branch of [on_gui_page_show]:
    [isinstance(override_idle, int) and not (override_idle, bool)
     and override_idle is not False]. *)
Definition numeric_override (override_idle : PyVal) : bool :=
  isinstance_int override_idle
  && negb (pair_truthy override_idle)
  && negb (is_False override_idle).

(** The test inside the third branch:
    [not isinstance(override_idle, bool) or not isinstance(override_idle, int)]. *)
Definition default_override (override_idle : PyVal) : bool :=
  negb (isinstance_bool override_idle) || negb (isinstance_int override_idle).

(** [on_gui_page_show(self, message)] *)
Definition on_gui_page_show (message : Message) : M unit :=
  from_self <- lift_in (py_in "BigscreenPlatform"
                 (dict_get_default (msg_data message) "__from" (PStr ""))) ;;
  if negb from_self then
    set_self (with_has_show_page true) ;;
    let override_idle := dict_get (msg_data message) "__idle" in
    let skill_id := dict_get_default (msg_data message) "__from" (PStr "") in
    if is_True override_idle then
      set_self (with_interaction_without_idle true) ;;
      cancel_idle_event ;;
      (* log: Overriding Till Further Notice *)
      override (Some message)
    else if numeric_override override_idle then
      (* log: Got Override With Idle Type Int *)
      set_self (with_interaction_without_idle true) ;;
      (* log: Overriding idle timer to override_idle seconds *)
      start_idle_event (int_value override_idle) false skill_id
    else
      page <- dict_item (msg_data message) "page" ;;
      if py_truthy page then
        (* log: Got Override Without Idle Page *)
        if default_override override_idle then
          set_self (with_interaction_without_idle false) ;;
          start_idle_event 30 false skill_id
        else ret tt
      else ret tt
  else ret tt.

(** [initialize(self)], on host [B] *)
Definition initialize (B : Bus) : M unit :=
  gui_register_handler B "mycroft.gui.screen.close" h_close_window_by_event ;;
  add_event B "mycroft.gui.screen.close" h_close_window_by_event ;;
  bus_on B "mycroft.gui.screen.close" h_close_window_by_event ;;
  add_event B "mycroft.gui.force.screenclose" h_close_window_by_force ;;
  bus_on B "mycroft.gui.force.screenclose" h_close_window_by_force ;;
  try_except
    (bus_on B "gui.page.show" h_on_gui_page_show ;;
     bus_on B "gui.page_interaction" h_on_gui_page_interaction)
    (fun _ => (* log: could not register on bus *) ret tt).

(** [shutdown(self)], on host [B] *)
Definition shutdown (B : Bus) : M unit :=
  bus_remove B "gui.page.show" h_on_gui_page_show ;;
  bus_remove B "gui.page_interaction" h_on_gui_page_interaction ;;
  bus_remove B "mycroft.gui.screen.close" h_close_window_by_event ;;
  bus_remove B "mycroft.gui.force.screenclose" h_close_window_by_force.

(** ** The host calling back into the skill *)

Definition invoke (h : Handler) (message : Message) : M unit :=
  match h with
  | h_close_window_by_event => close_window_by_event message
  | h_close_window_by_force => close_window_by_force message
  | h_on_gui_page_show => on_gui_page_show message
  | h_on_gui_page_interaction => on_gui_page_interaction message
  | h_close_current_window => close_current_window message
  end.

(** The scheduler calls the handler of an entry with the entry's data. *)
Definition fire (e : Scheduled) : M unit :=
  invoke (sch_handler e) (mkMessage (sch_name e) (sch_data e)).

Definition is_due (now : Q) (e : Scheduled) : bool :=
  Qle_bool (sch_at e + inject_Z (sch_when e)) now.

Fixpoint fire_all (es : list Scheduled) : M unit :=
  match es with
  | [] => ret tt
  | e :: es' => fire e ;; fire_all es'
  end.

(** One pass of the scheduler: the entries that are due leave the queue and
    are fired in order. *)
Definition run_scheduler : M unit :=
  fun w =>
    let due := List.filter (is_due (clock w)) (scheduled w) in
    let rest := List.filter (fun e => negb (is_due (clock w) e)) (scheduled w) in
    fire_all due (with_scheduled rest w).

(** Delivery on [emitter_bus]: a message goes to every listener of its type
    that was added with [add_event] or [bus.on], in the order of
    registration; an exception stays with the listener that raised it. *)
Fixpoint deliver_to (ls : list Listener) (message : Message) : M unit :=
  match ls with
  | [] => ret tt
  | l :: ls' =>
      try_except (invoke (l_handler l) message) (fun _ => ret tt) ;;
      deliver_to ls' message
  end.

Definition deliver (message : Message) : M unit :=
  fun w =>
    deliver_to
      (filter (fun l => l_event l = msg_type message
                        /\ (l_via l = AddEvent \/ l_via l = BusOn))
              (listeners w))
      message w.

(** ** Observations *)

(** The scheduled close actions: the entries named [IdleCheck]. *)
Definition idle_checks (w : World) : list Scheduled :=
  filter (fun e => sch_name e = "IdleCheck") (scheduled w).

Definition pending_idle (w : World) : nat := length (idle_checks w).

(** The entry [start_idle_event] hands to the scheduler when it is called in
    world [w]: the half second of sleep has passed when the entry is made. *)
Definition idle_entry (offset : Z) (skid : PyVal) (w : World) : Scheduled :=
  mkScheduled "IdleCheck" h_close_current_window offset
              (clock w + (1 # 2))%Q {[ "skill_id" := skid ]}.

(** The entries [cancel_scheduled_event('IdleCheck')] leaves in place. *)
Definition other_entries (w : World) : list Scheduled :=
  filter (fun e => sch_name e <> "IdleCheck") (scheduled w).

(** What [on_gui_page_show] reads from a message: the source identity
    [data.get('__from', '')] and the override directive [data.get('__idle')]. *)
Definition source_id (message : Message) : PyVal :=
  dict_get_default (msg_data message) "__from" (PStr "").

Definition directive (message : Message) : PyVal :=
  dict_get (msg_data message) "__idle".

(** The message does not come from this skill: the test of the first line
    of [on_gui_page_show] evaluates, and to true.  A message whose [__from]
    is no string, list or dict makes that test raise: it is neither
    [not_from_self] nor taken for a message of this skill. *)
Definition not_from_self (message : Message) : Prop :=
  py_in "BigscreenPlatform" (source_id message) = inr false.

(** The handler does not take the message for one of this skill: the
    membership test yields false, or it raises. *)
Definition not_own (message : Message) : Prop :=
  py_in "BigscreenPlatform" (source_id message) <> inr true.

(** The directive is an integer above zero and not a boolean. *)
Definition positive_int (v : PyVal) : bool :=
  match v with
  | PInt n => Z.ltb 0 n
  | _ => false
  end.

(** The recorded deadline and the scheduler queue are as before. *)
Definition timer_unchanged (w w' : World) : Prop :=
  idle_next (self w') = idle_next (self w) /\ scheduled w' = scheduled w.

(** How often a handler is registered: the entries of the table for it that
    are not removals. *)
Definition registrations (h : Handler) (w : World) : nat :=
  length (filter (fun l => l_handler l = h /\ l_via l <> BusRemove)
                 (listeners w)).

(** Calls into the idle timer, with the time that passes between them. *)
Inductive TimerCall : Type :=
| Arm (offset : Z) (weak : bool) (skid : PyVal)
| Cancel
| Elapse (d : Q).

Definition timer_call (c : TimerCall) (w : World) : World :=
  match c with
  | Arm offset weak skid => exec (start_idle_event offset weak skid) w
  | Cancel => exec cancel_idle_event w
  | Elapse d => elapse d w
  end.

(** The worlds after each call of a sequence. *)
Fixpoint timer_trace (cs : list TimerCall) (w : World) : list World :=
  match cs with
  | [] => []
  | c :: cs' => timer_call c w :: timer_trace cs' (timer_call c w)
  end.

(** The worlds the skill can be in: created by [__init__] at a clock reading
    that is not negative, then driven by its host, whatever bus the host
    has.  A call of a method is one step: the methods run one at a time. *)
Inductive reachable : World -> Prop :=
| reach_init t0 : (0 <= t0)%Q -> reachable (init_world t0)
| reach_initialize B w : reachable w -> reachable (exec (initialize B) w)
| reach_shutdown B w : reachable w -> reachable (exec (shutdown B) w)
| reach_invoke h m w : reachable w -> reachable (exec (invoke h m) w)
| reach_scheduler w : reachable w -> reachable (exec run_scheduler w)
| reach_elapse d w : (0 <= d)%Q -> reachable w -> reachable (elapse d w).

(** ** Sample messages *)

Definition show_with_timeout : Message :=
  mkMessage "gui.page.show"
    {[ "__from" := PStr "skill.weather"; "__idle" := PInt 15;
       "page" := PStr "weather" ]}.

Definition show_plain : Message :=
  mkMessage "gui.page.show"
    {[ "__from" := PStr "skill.weather"; "page" := PStr "weather" ]}.

Definition show_idle_false : Message :=
  mkMessage "gui.page.show"
    {[ "__from" := PStr "skill.weather"; "__idle" := PBool false;
       "page" := PStr "weather" ]}.

Definition show_idle_true : Message :=
  mkMessage "gui.page.show"
    {[ "__from" := PStr "skill.weather"; "__idle" := PBool true;
       "page" := PStr "weather" ]}.

Definition show_empty_page : Message :=
  mkMessage "gui.page.show"
    {[ "__from" := PStr "skill.weather"; "page" := PStr "" ]}.

Definition show_from_number : Message :=
  mkMessage "gui.page.show" {[ "__from" := PInt 5; "page" := PStr "weather" ]}.

Definition show_without_page : Message :=
  mkMessage "gui.page.show" {[ "__from" := PStr "skill.weather" ]}.

Definition screen_close : Message :=
  mkMessage "mycroft.gui.screen.close" ∅.

Definition force_close_clock : Message :=
  mkMessage "mycroft.gui.force.screenclose" {[ "skill_id" := PStr "clock" ]}.

Definition force_close_bare : Message :=
  mkMessage "mycroft.gui.force.screenclose" ∅.

(** ** Invariants of the reachable worlds *)

(** The clock is not negative, the recorded deadline is at most thirty
    seconds ahead, and at most one close action is pending. *)
Definition timer_inv (w : World) : Prop :=
  (0 <= clock w)%Q
  /\ (idle_next (self w) <= clock w + inject_Z 30)%Q
  /\ pending_idle w <= 1.

(** A method writes to the host's table of listeners and to nothing else. *)
Definition listeners_only {A} (m : M A) : Prop :=
  forall w, exec m w = with_listeners (listeners (exec m w)) w.

(** A method keeps a property of the world, however it ends. *)
Definition preserves {A} (P : World -> Prop) (m : M A) : Prop :=
  forall w, P w -> P (exec m w).

(** ** Steps of the host and what they may touch *)

(** What the host does with the skill between two moments. *)
Inductive HostStep : Type :=
| StepInitialize (B : Bus)
| StepShutdown (B : Bus)
| StepInvoke (h : Handler) (message : Message)
| StepScheduler
| StepElapse (d : Q).

Definition host_step (s : HostStep) (w : World) : World :=
  match s with
  | StepInitialize B => exec (initialize B) w
  | StepShutdown B => exec (shutdown B) w
  | StepInvoke h message => exec (invoke h message) w
  | StepScheduler => exec run_scheduler w
  | StepElapse d => elapse d w
  end.

Definition host_run (steps : list HostStep) (w : World) : World :=
  fold_left (fun w' s => host_step s w') steps w.

(** The writes a method is made of.  Every method of the skill, and a pass
    of the scheduler, is a sequence of these ([invoke_touch],
    [run_scheduler_touch]). *)
Inductive touch : World -> World -> Prop :=
| touch_none w : touch w w
| touch_then w1 w2 w3 : touch w1 w2 -> touch w2 w3 -> touch w1 w3
| touch_shown w : touch w (with_self (with_has_show_page true) w)
| touch_flag b w : touch w (with_self (with_interaction_without_idle b) w)
| touch_source v w : touch w (with_self (with_interaction_skill_id v) w)
| touch_memo m w :
    not_from_self m -> directive m = PBool true ->
    touch w (exec (override (Some m)) w)
| touch_cancel w : touch w (exec cancel_idle_event w)
| touch_arm skid w : touch w (exec (start_idle_event 30 false skid) w)
| touch_emit v w : touch w (with_emitted (emitted w ++ [close_event v]) w)
| touch_drop f w :
    touch w (with_scheduled (List.filter f (scheduled w)) w)
| touch_listeners l w : touch w (with_listeners l w).

(** A message on the bus that is a close event. *)
Definition is_close_event (m : Message) : Prop :=
  exists v, m = close_event v.

(** A scheduler entry as the handlers make them. *)
Definition is_idle_check (e : Scheduled) : Prop :=
  sch_name e = "IdleCheck"
  /\ sch_handler e = h_close_current_window
  /\ sch_when e = 30%Z
  /\ is_Some (sch_data e !! "skill_id").

(** The scheduler holds idle checks only, the bus has seen close events
    only. *)
Definition host_inv (w : World) : Prop :=
  Forall is_idle_check (scheduled w) /\ Forall is_close_event (emitted w).


(** The steps in which no page is shown and no close is asked for: a page
    interaction, the timer's action, a pass of the scheduler, time. *)
Definition quiet_step (s : HostStep) : bool :=
  match s with
  | StepInvoke h_on_gui_page_interaction _ => true
  | StepInvoke h_close_current_window _ => true
  | StepScheduler => true
  | StepElapse _ => true
  | _ => false
  end.

(** A step that does not turn the clock back. *)
Definition forward_step (s : HostStep) : Prop :=
  match s with
  | StepElapse d => (0 <= d)%Q
  | _ => True
  end.

(** A sample run: the skill is set up, a page is shown, ten seconds later
    the user flips it, and the scheduler looks at its queue after another
    thirty-one seconds. *)
Definition flip_weather : Message :=
  mkMessage "gui.page_interaction" {[ "skill_id" := PStr "skill.weather" ]}.

Definition sample_steps : list HostStep :=
  [ StepInitialize emitter_bus;
    StepInvoke h_on_gui_page_show show_plain;
    StepElapse 10;
    StepInvoke h_on_gui_page_interaction flip_weather;
    StepElapse 31;
    StepScheduler ].

Definition show_from_own_skill : Message :=
  mkMessage "gui.page.show"
    {[ "__from" := PStr "mycroft.BigscreenPlatform.home";
       "page" := PStr "home" ]}.

(** A world with a page on show and its default timer running. *)
Definition page_on_show : World :=
  exec (on_gui_page_show show_plain) (init_world 0).

(** * Properties *)

(** ** Clock comparisons *)

Lemma Qltb_lt (x y : Q) : Qltb x y = true <-> (x < y)%Q.
Proof.
  unfold Qltb. rewrite negb_true_iff. split.
  - intros H. apply Qnot_le_lt. intros Hle.
    apply Qle_bool_iff in Hle. congruence.
  - intros H. destruct (Qle_bool y x) eqn:E; [|reflexivity].
    apply Qle_bool_iff in E. exfalso. exact (Qlt_not_le _ _ H E).
Qed.

Lemma Qltb_ge (x y : Q) : Qltb x y = false <-> ~ (x < y)%Q.
Proof.
  rewrite <- Qltb_lt. destruct (Qltb x y); split; congruence.
Qed.

(** ** The idle timer: [start_idle_event] and [cancel_idle_event] *)

Section IdleTimer.

Variables (offset : Z) (skid : PyVal).

(** The guard at the head of the critical section rejects the call. *)
Lemma start_idle_event_rejected weak w :
  (clock w + inject_Z offset < idle_next (self w))%Q ->
  start_idle_event offset weak skid w = (Return tt, w).
Proof.
  intros H. apply Qltb_lt in H.
  unfold start_idle_event, bind, monotonic, get_self. cbn.
  rewrite H. reflexivity.
Qed.

(** The guard lets the call through: the world after it. *)
Lemma start_idle_event_accepted weak w :
  ~ (clock w + inject_Z offset < idle_next (self w))%Q ->
  start_idle_event offset weak skid w =
    (Return tt,
     mkWorld
       (if weak then self w
        else with_idle_next (clock w + inject_Z offset)%Q (self w))
       (clock w + (1 # 2))%Q
       (other_entries w ++ [idle_entry offset skid w])
       (emitted w)
       (listeners w)).
Proof.
  intros H. apply Qltb_ge in H.
  unfold start_idle_event, bind, monotonic, get_self. cbn.
  rewrite H. destruct weak; reflexivity.
Qed.

Lemma idle_checks_other_entries w :
  filter (fun e => sch_name e = "IdleCheck") (other_entries w) = [].
Proof.
  unfold other_entries. induction (scheduled w) as [|e l IH]; [reflexivity|].
  rewrite (filter_cons (fun e => sch_name e <> "IdleCheck")).
  destruct (decide (sch_name e <> "IdleCheck")) as [Hne|Heq]; [|exact IH].
  rewrite filter_cons. destruct (decide (sch_name e = "IdleCheck"));
    [contradiction | exact IH].
Qed.

Lemma idle_checks_others_entry w :
  filter (fun e => sch_name e = "IdleCheck")
         (other_entries w ++ [idle_entry offset skid w])
  = [idle_entry offset skid w].
Proof.
  rewrite filter_app, idle_checks_other_entries. reflexivity.
Qed.

Lemma start_idle_event_returns weak w :
  outcome (start_idle_event offset weak skid) w = Return tt.
Proof.
  unfold outcome.
  destruct (Qltb (clock w + inject_Z offset) (idle_next (self w))) eqn:E.
  - apply Qltb_lt in E. now rewrite start_idle_event_rejected.
  - apply Qltb_ge in E. now rewrite start_idle_event_accepted.
Qed.

(** After a call that passes the guard exactly the new entry is pending. *)
Lemma start_idle_event_idle_checks weak w :
  ~ (clock w + inject_Z offset < idle_next (self w))%Q ->
  idle_checks (exec (start_idle_event offset weak skid) w) = [idle_entry offset skid w].
Proof.
  intros H. unfold exec. rewrite start_idle_event_accepted by exact H.
  unfold idle_checks. cbn. apply idle_checks_others_entry.
Qed.

(** C2, as the code has it.  The guard of [start_idle_event] does not
    look at [weak]: an authoritative call whose candidate deadline is
    earlier than the recorded one returns without any change.  When the
    candidate is not earlier, the call records the candidate as deadline,
    removes every pending [IdleCheck] and schedules one new action with
    delay [offset]. *)
Theorem authoritative_arm_replaces_unless_earlier w :
  let candidate := (clock w + inject_Z offset)%Q in
  let w' := exec (start_idle_event offset false skid) w in
  outcome (start_idle_event offset false skid) w = Return tt
  /\ ((candidate < idle_next (self w))%Q -> w' = w)
  /\ (~ (candidate < idle_next (self w))%Q ->
      idle_next (self w') = candidate
      /\ scheduled w' = other_entries w ++ [idle_entry offset skid w]
      /\ idle_checks w' = [idle_entry offset skid w]
      /\ sch_when (idle_entry offset skid w) = offset).
Proof.
  cbn zeta. split; [apply start_idle_event_returns|]. split.
  - intros H. unfold exec. now rewrite start_idle_event_rejected.
  - intros H. split; [|split; [|split]].
    + unfold exec. now rewrite start_idle_event_accepted.
    + unfold exec. now rewrite start_idle_event_accepted.
    + now apply start_idle_event_idle_checks.
    + reflexivity.
Qed.

(** C8.  A weak call whose candidate deadline is earlier than the
    recorded deadline changes nothing; a weak call whose candidate is not
    earlier reschedules the action and keeps the recorded deadline, so a
    later weak call is again compared with that deadline. *)
Theorem weak_arm_keeps_deadline w :
  let D := idle_next (self w) in
  let candidate := (clock w + inject_Z offset)%Q in
  let w' := exec (start_idle_event offset true skid) w in
  ((candidate < D)%Q -> w' = w)
  /\ ((D <= candidate)%Q ->
      idle_next (self w') = D
      /\ scheduled w' = other_entries w ++ [idle_entry offset skid w]
      /\ idle_checks w' = [idle_entry offset skid w]
      /\ forall offset2 skid2,
           (clock w' + inject_Z offset2 < D)%Q ->
           exec (start_idle_event offset2 true skid2) w' = w').
Proof.
  cbn zeta. split.
  - intros H. unfold exec. now rewrite start_idle_event_rejected.
  - intros H. apply Qle_not_lt in H.
    assert (E : idle_next (self (exec (start_idle_event offset true skid) w))
                = idle_next (self w)).
    { unfold exec. now rewrite start_idle_event_accepted. }
    split; [exact E|]. split; [|split].
    + unfold exec. now rewrite start_idle_event_accepted.
    + now apply start_idle_event_idle_checks.
    + intros offset2 skid2 H2. unfold exec at 1.
      unfold start_idle_event at 1. unfold bind, monotonic, get_self. cbn.
      rewrite E. apply Qltb_lt in H2. rewrite H2. reflexivity.
Qed.

End IdleTimer.

(** ** At most one pending close action *)

Section AtMostOne.

Lemma cancel_idle_event_world w :
  cancel_idle_event w =
    (Return tt,
     mkWorld (with_idle_next 0 (self w)) (clock w) (other_entries w)
             (emitted w) (listeners w)).
Proof. reflexivity. Qed.

Lemma cancel_idle_event_pending w :
  pending_idle (exec cancel_idle_event w) = 0.
Proof.
  unfold exec, pending_idle, idle_checks. rewrite cancel_idle_event_world.
  cbn. now rewrite idle_checks_other_entries.
Qed.

Lemma timer_call_pending c w :
  pending_idle w <= 1 -> pending_idle (timer_call c w) <= 1.
Proof.
  intros Hw. destruct c as [offset weak skid| |d]; unfold timer_call.
  - destruct (Qltb (clock w + inject_Z offset) (idle_next (self w))) eqn:E.
    + apply Qltb_lt in E. unfold exec.
      now rewrite start_idle_event_rejected.
    + apply Qltb_ge in E. unfold pending_idle.
      now rewrite start_idle_event_idle_checks.
  - rewrite cancel_idle_event_pending. lia.
  - exact Hw.
Qed.

(** C7.  Along every sequence of arm and cancel calls, with any time
    passing in between, at most one [IdleCheck] action is pending after
    each call, provided at most one was pending before the first.  A cancel
    leaves none; an arm that passes the guard leaves exactly the action it
    scheduled, however many were pending before. *)
Theorem at_most_one_idle_check :
  (forall cs w,
      pending_idle w <= 1 ->
      Forall (fun w' => pending_idle w' <= 1) (timer_trace cs w))
  /\ (forall w, pending_idle (exec cancel_idle_event w) = 0)
  /\ (forall offset weak skid w,
        ~ (clock w + inject_Z offset < idle_next (self w))%Q ->
        idle_checks (exec (start_idle_event offset weak skid) w)
        = [idle_entry offset skid w]).
Proof.
  split; [|split].
  - induction cs as [|c cs IH]; intros w Hw; cbn.
    + constructor.
    + constructor.
      * now apply timer_call_pending.
      * apply IH. now apply timer_call_pending.
  - apply cancel_idle_event_pending.
  - intros offset weak skid w H. now apply start_idle_event_idle_checks.
Qed.

End AtMostOne.

(** ** The three close paths *)

Section ClosePaths.

Lemma close_current_window_world message w :
  close_current_window message w =
    (Return tt,
     if interaction_without_idle (self w) then w
     else with_emitted
            (emitted w ++ [close_event (dict_get (msg_data message) "skill_id")])
            w).
Proof.
  unfold close_current_window, bind, get_self. cbn.
  destruct (interaction_without_idle (self w)); reflexivity.
Qed.

(** C3.  Whatever the world was when the timer was armed, the action it
    scheduled looks at the suppression flag of the world it runs in: with
    the flag set it emits nothing and changes nothing; with the flag clear
    it emits one close event, for the identity the timer was armed with. *)
Theorem fire_reads_suppression_when_it_runs offset weak skid w_arm e w_fire :
  ~ (clock w_arm + inject_Z offset < idle_next (self w_arm))%Q ->
  e ∈ idle_checks (exec (start_idle_event offset weak skid) w_arm) ->
  fire e w_fire =
    (Return tt,
     if interaction_without_idle (self w_fire) then w_fire
     else with_emitted (emitted w_fire ++ [close_event skid]) w_fire).
Proof.
  intros Hguard He.
  rewrite start_idle_event_idle_checks in He by exact Hguard.
  apply list_elem_of_singleton in He. subst e.
  unfold fire, idle_entry, invoke, sch_handler, sch_name, sch_data.
  rewrite close_current_window_world. unfold dict_get, msg_data.
  now rewrite lookup_singleton_eq.
Qed.

Lemma close_window_by_event_world message w :
  close_window_by_event message w =
    (Return tt,
     with_emitted (emitted w ++ [close_event (interaction_skill_id (self w))])
                  (with_self (with_interaction_without_idle false) w)).
Proof. reflexivity. Qed.

Lemma close_window_by_force_world message w sid :
  msg_data message !! "skill_id" = Some sid ->
  close_window_by_force message w =
    (Return tt, with_emitted (emitted w ++ [close_event sid]) w).
Proof.
  intros H. unfold close_window_by_force, bind, dict_item.
  rewrite H. reflexivity.
Qed.

(** C6.  [close_window_by_event] clears the interaction-without-idle flag
    and emits one close event for the last interaction source;
    [close_window_by_force], on a payload that carries [skill_id], emits
    one close event for that identity and changes nothing else.  Neither
    looks at the suppression flag. *)
Theorem explicit_and_force_close_emit_once :
  (forall message w,
      close_window_by_event message w =
        (Return tt,
         with_emitted
           (emitted w ++ [close_event (interaction_skill_id (self w))])
           (with_self (with_interaction_without_idle false) w)))
  /\ (forall message w sid,
        msg_data message !! "skill_id" = Some sid ->
        close_window_by_force message w =
          (Return tt, with_emitted (emitted w ++ [close_event sid]) w)).
Proof.
  split.
  - apply close_window_by_event_world.
  - apply close_window_by_force_world.
Qed.

(** C10.  On a payload without [skill_id] the subscript raises [KeyError]
    before anything is emitted: the world is unchanged and the exception
    leaves the handler. *)
Theorem force_close_without_skill_id_raises message w :
  msg_data message !! "skill_id" = None ->
  close_window_by_force message w = (Raise (KeyError "skill_id"), w).
Proof.
  intros H. unfold close_window_by_force, bind, dict_item.
  rewrite H. reflexivity.
Qed.

End ClosePaths.

(** ** [on_gui_page_show] *)

Section PageShow.

(** The second branch is never taken: its test negates a pair. *)
Lemma numeric_override_never v : numeric_override v = false.
Proof.
  unfold numeric_override, pair_truthy. cbn.
  now rewrite andb_false_r.
Qed.

(** The inner test of the third branch only excludes booleans. *)
Lemma default_override_not_bool v :
  default_override v = negb (isinstance_bool v).
Proof. destruct v as [|[]| | | | |]; reflexivity. Qed.

Variables (message : Message) (w : World).
Hypothesis Hfrom : not_from_self message.

(** The world once the handler has noted that a page was shown. *)
Let shown : World := with_self (with_has_show_page true) w.

(** A message of this skill itself is ignored. *)
Lemma page_show_from_self :
  py_in "BigscreenPlatform" (source_id message) = inr true ->
  on_gui_page_show message w = (Return tt, w).
Proof.
  intros H. unfold on_gui_page_show, bind.
  fold (source_id message). rewrite H. reflexivity.
Qed.

(** First branch: [__idle] is [True]. *)
Lemma page_show_indefinite :
  directive message = PBool true ->
  on_gui_page_show message w =
    (Return tt,
     mkWorld
       (mkSkill (Some (message, clock w)) true
                (interaction_skill_id (self w)) 0 (clock w) true)
       (clock w) (other_entries w) (emitted w) (listeners w)).
Proof.
  intros H. unfold on_gui_page_show, bind.
  fold (source_id message) (directive message).
  rewrite Hfrom, H. reflexivity.
Qed.

(** Everything else reaches the third branch, which subscripts [page]. *)
Lemma page_show_third_branch :
  is_True (directive message) = false ->
  on_gui_page_show message w =
    match msg_data message !! "page" with
    | None => (Raise (KeyError "page"), shown)
    | Some page =>
        if py_truthy page && negb (isinstance_bool (directive message))
        then start_idle_event 30 false (source_id message)
               (with_self (with_interaction_without_idle false) shown)
        else (Return tt, shown)
    end.
Proof.
  intros H. unfold on_gui_page_show, bind.
  fold (source_id message) (directive message).
  rewrite Hfrom, H, numeric_override_never, default_override_not_bool.
  unfold lift_in, ret, set_self, dict_item. cbn [negb].
  destruct (msg_data message !! "page") as [page|]; [|reflexivity].
  unfold ret.
  destruct (py_truthy page); [|reflexivity].
  destruct (isinstance_bool (directive message)); reflexivity.
Qed.

(** A missing [page] field makes the handler raise. *)
Lemma page_show_missing_page_raises :
  is_True (directive message) = false ->
  msg_data message !! "page" = None ->
  on_gui_page_show message w = (Raise (KeyError "page"), shown).
Proof.
  intros H Hp. rewrite page_show_third_branch by exact H.
  now rewrite Hp.
Qed.

(** C5, as the code has it.  With a non-empty page and a directive that
    is not a boolean and not a positive integer (absent, for one), the
    handler clears the flag and calls [start_idle_event(30, skid=source)]:
    when the guard lets the call through, the deadline is thirty seconds
    from now and exactly one action with delay 30 is pending for the
    source.  A boolean directive is shut out by the inner test of the
    branch.  The branches are an if/elif chain: with the directive [True]
    only the first runs, so the flag is set, the deadline cleared and no
    close action is pending. *)
Theorem page_show_default_arms_30 page :
  msg_data message !! "page" = Some page ->
  py_truthy page = true ->
  (isinstance_bool (directive message) = false ->
   positive_int (directive message) = false ->
     on_gui_page_show message w
     = start_idle_event 30 false (source_id message)
         (with_self (with_interaction_without_idle false)
                    (with_self (with_has_show_page true) w))
     /\ (~ (clock w + inject_Z 30 < idle_next (self w))%Q ->
         let w' := exec (on_gui_page_show message) w in
         interaction_without_idle (self w') = false
         /\ idle_next (self w') = (clock w + inject_Z 30)%Q
         /\ idle_checks w' = [idle_entry 30 (source_id message) w]))
  /\ (directive message = PBool true ->
      let w' := exec (on_gui_page_show message) w in
      interaction_without_idle (self w') = true
      /\ idle_next (self w') = 0%Q
      /\ idle_checks w' = []).
Proof.
  intros Hp Ht. split.
  - intros Hb _.
    assert (H : is_True (directive message) = false)
      by (destruct (directive message); cbn in *; congruence).
    assert (E := page_show_third_branch H).
    rewrite Hp, Ht, Hb in E. cbn [andb negb] in E.
    split; [exact E|].
    intros Hguard. cbn zeta. unfold exec. rewrite E.
    rewrite start_idle_event_accepted by exact Hguard.
    cbn. split; [reflexivity|]. split; [reflexivity|].
    unfold idle_checks. cbn.
    apply (idle_checks_others_entry 30 (source_id message) w).
  - intros Hd. cbn zeta. unfold exec.
    rewrite page_show_indefinite by exact Hd. cbn.
    split; [reflexivity|]. split; [reflexivity|].
    unfold idle_checks. cbn. apply idle_checks_other_entries.
Qed.

End PageShow.

(** ** What holds in every reachable world *)

Section Reachable.

Lemma preserves_bind {A B} P (m : M A) (f : A -> M B) :
  preserves P m -> (forall a, preserves P (f a)) -> preserves P (bind m f).
Proof.
  intros Hm Hf w Hw. specialize (Hm w Hw). unfold exec, bind in *.
  destruct (m w) as [[a|e] w1]; cbn in *; [|exact Hm].
  now apply (Hf a).
Qed.

Lemma preserves_try_except {A} P (m : M A) (h : PyExn -> M A) :
  preserves P m -> (forall e, preserves P (h e)) ->
  preserves P (try_except m h).
Proof.
  intros Hm Hh w Hw. specialize (Hm w Hw). unfold exec, try_except in *.
  destruct (m w) as [[a|e] w1]; cbn in *; [exact Hm|].
  now apply (Hh e).
Qed.

Lemma preserves_same {A} P (m : M A) :
  (forall w, exec m w = w) -> preserves P m.
Proof. intros H w Hw. now rewrite H. Qed.

Lemma timer_inv_frame w w' :
  clock w' = clock w -> idle_next (self w') = idle_next (self w) ->
  scheduled w' = scheduled w -> timer_inv w -> timer_inv w'.
Proof.
  unfold timer_inv, pending_idle, idle_checks.
  intros -> -> ->. tauto.
Qed.

Lemma start_idle_event_30_inv weak skid :
  preserves timer_inv (start_idle_event 30 weak skid).
Proof.
  intros w (Hc & Hn & Hp).
  destruct (Qltb (clock w + inject_Z 30) (idle_next (self w))) eqn:E.
  - apply Qltb_lt in E. unfold exec.
    rewrite start_idle_event_rejected by exact E. now repeat split.
  - apply Qltb_ge in E. unfold timer_inv, pending_idle.
    rewrite start_idle_event_idle_checks by exact E.
    unfold exec. rewrite start_idle_event_accepted by exact E.
    cbn [snd clock self]. split; [|split].
    + lra.
    + destruct weak; cbn [idle_next with_idle_next]; lra.
    + cbn. lia.
Qed.

Lemma cancel_idle_event_inv : preserves timer_inv cancel_idle_event.
Proof.
  intros w (Hc & Hn & Hp). unfold timer_inv.
  rewrite cancel_idle_event_pending. unfold exec.
  rewrite cancel_idle_event_world. cbn. split; [exact Hc|].
  split; [|lia]. unfold inject_Z. lra.
Qed.

Lemma set_self_inv f :
  (forall k, idle_next (f k) = idle_next k) ->
  preserves timer_inv (set_self f).
Proof.
  intros Hf w. apply timer_inv_frame; cbn; auto.
Qed.

Lemma override_inv om : preserves timer_inv (override om).
Proof.
  unfold override. apply preserves_bind; [now apply preserves_same|].
  intros t. apply preserves_bind; [now apply set_self_inv|]. intros _.
  destruct om as [m|]; [|now apply preserves_same].
  apply preserves_bind; [now apply preserves_same|].
  intros t'. now apply set_self_inv.
Qed.

Lemma on_gui_page_show_inv m : preserves timer_inv (on_gui_page_show m).
Proof.
  intros w Hw.
  destruct (py_in "BigscreenPlatform" (source_id m)) as [e|[|]] eqn:Hin.
  - unfold exec, on_gui_page_show, bind. fold (source_id m).
    now rewrite Hin.
  - unfold exec. now rewrite page_show_from_self.
  - destruct (is_True (directive m)) eqn:Ht.
    + assert (Hd : directive m = PBool true)
        by (destruct (directive m) as [|[]| | | | |]; cbn in Ht; congruence).
      destruct Hw as (Hc & Hn & Hp). unfold exec, timer_inv, pending_idle.
      rewrite (page_show_indefinite m w Hin Hd). unfold idle_checks. cbn.
      rewrite idle_checks_other_entries. cbn. split; [exact Hc|].
      split; [|lia]. unfold inject_Z. lra.
    + unfold exec. rewrite (page_show_third_branch m w Hin Ht).
      assert (Hs : timer_inv (with_self (with_has_show_page true) w))
        by (revert Hw; now apply timer_inv_frame).
      destruct (msg_data m !! "page") as [page|]; [|exact Hs].
      destruct (py_truthy page && negb (isinstance_bool (directive m)));
        [|exact Hs].
      apply start_idle_event_30_inv.
      revert Hs. now apply timer_inv_frame.
Qed.

Lemma invoke_inv h m : preserves timer_inv (invoke h m).
Proof.
  destruct h; cbn [invoke].
  - intros w. apply timer_inv_frame; reflexivity.
  - intros w. unfold exec, close_window_by_force, bind, dict_item.
    destruct (msg_data m !! "skill_id"); cbn; [|tauto].
    apply timer_inv_frame; reflexivity.
  - apply on_gui_page_show_inv.
  - unfold on_gui_page_interaction.
    apply preserves_bind; [now apply set_self_inv|]. intros _.
    apply preserves_bind; [now apply preserves_same|]. intros flag.
    destruct flag; cbn [negb]; [now apply preserves_same|].
    apply start_idle_event_30_inv.
  - intros w. unfold exec. rewrite close_current_window_world.
    destruct (interaction_without_idle (self w)); [tauto|].
    apply timer_inv_frame; reflexivity.
Qed.

Lemma fire_all_inv es : preserves timer_inv (fire_all es).
Proof.
  induction es as [|e es IH]; cbn [fire_all].
  - now apply preserves_same.
  - apply preserves_bind; [apply invoke_inv|]. intros _. exact IH.
Qed.

Lemma idle_checks_after_pass now l :
  length (filter (fun e => sch_name e = "IdleCheck")
                 (List.filter (fun e => negb (is_due now e)) l))
  <= length (filter (fun e => sch_name e = "IdleCheck") l).
Proof.
  induction l as [|e l IH]; [reflexivity|]. cbn [List.filter].
  rewrite (filter_cons _ e l).
  destruct (negb (is_due now e)).
  - rewrite filter_cons. destruct (decide (sch_name e = "IdleCheck"));
      cbn [length]; lia.
  - destruct (decide (sch_name e = "IdleCheck")); cbn [length]; lia.
Qed.

Lemma run_scheduler_inv : preserves timer_inv run_scheduler.
Proof.
  intros w (Hc & Hn & Hp). unfold exec, run_scheduler.
  apply fire_all_inv. split; [exact Hc|]. split; [exact Hn|].
  unfold pending_idle, idle_checks in *. cbn.
  pose proof (idle_checks_after_pass (clock w) (scheduled w)). lia.
Qed.

Lemma listeners_only_bind {A B} (m : M A) (f : A -> M B) :
  listeners_only m -> (forall a, listeners_only (f a)) ->
  listeners_only (bind m f).
Proof.
  intros Hm Hf w. specialize (Hm w). unfold exec, bind in *.
  destruct (m w) as [[a|e] w1]; cbn [snd] in *; [|exact Hm].
  specialize (Hf a w1). unfold exec in Hf.
  destruct (snd (f a w1)) as [s2 c2 q2 e2 l2].
  destruct w1 as [s1 c1 q1 e1 l1]. destruct w as [s0 c0 q0 e0 l0].
  unfold with_listeners in *. cbn in *.
  injection Hm as -> -> -> ->. injection Hf as -> -> -> ->. reflexivity.
Qed.

Lemma listeners_only_try_except {A} (m : M A) (h : PyExn -> M A) :
  listeners_only m -> (forall e, listeners_only (h e)) ->
  listeners_only (try_except m h).
Proof.
  intros Hm Hh w. specialize (Hm w). unfold exec, try_except in *.
  destruct (m w) as [[a|e] w1]; cbn [snd] in *; [exact Hm|].
  specialize (Hh e w1). unfold exec in Hh.
  destruct (snd (h e w1)) as [s2 c2 q2 e2 l2].
  destruct w1 as [s1 c1 q1 e1 l1]. destruct w as [s0 c0 q0 e0 l0].
  unfold with_listeners in *. cbn in *.
  injection Hm as -> -> -> ->. injection Hh as -> -> -> ->. reflexivity.
Qed.

Lemma host_call_listeners_only call event h :
  listeners_only (host_call call event h).
Proof. intros w. reflexivity. Qed.

(** On any host [initialize] and [shutdown] write to the table of
    listeners only. *)
Lemma initialize_listeners_only B : listeners_only (initialize B).
Proof.
  unfold initialize.
  repeat (apply listeners_only_bind; [apply host_call_listeners_only|intros _]).
  apply listeners_only_try_except; [|intros _ w; now destruct w].
  apply listeners_only_bind; [apply host_call_listeners_only|intros _].
  apply host_call_listeners_only.
Qed.

Lemma shutdown_listeners_only B : listeners_only (shutdown B).
Proof.
  unfold shutdown.
  repeat (apply listeners_only_bind; [apply host_call_listeners_only|intros _]).
  apply host_call_listeners_only.
Qed.

(** Every reachable world satisfies [timer_inv]: in particular at most
    one close action is pending at any time. *)
Lemma reachable_timer_inv w : reachable w -> timer_inv w.
Proof.
  induction 1 as [t0 H0|B w _ IH|B w _ IH|h m w _ IH|w _ IH|d w Hd _ IH].
  - unfold timer_inv. cbn. split; [exact H0|]. split; [|lia].
    unfold inject_Z. lra.
  - rewrite (initialize_listeners_only B w).
    revert IH. apply timer_inv_frame; reflexivity.
  - rewrite (shutdown_listeners_only B w).
    revert IH. apply timer_inv_frame; reflexivity.
  - now apply invoke_inv.
  - now apply run_scheduler_inv.
  - destruct IH as (Hc & Hn & Hp). unfold timer_inv, elapse. cbn.
    split; [lra|]. split; [lra|exact Hp].
Qed.

(** In a reachable world the guard never rejects an arm of thirty
    seconds, the only arm the handlers make. *)
Lemma reachable_default_arm_accepted w :
  reachable w -> ~ (clock w + inject_Z 30 < idle_next (self w))%Q.
Proof.
  intros H. destruct (reachable_timer_inv w H) as (_ & Hn & _).
  now apply Qle_not_lt.
Qed.

End Reachable.

(** ** The numeric directive *)

Section NumericDirective.

(** C1 on the code.  The branch written for an integer directive sets the
    indicated timeout, but it is never taken ([numeric_override_never]):
    with a non-empty page the handler goes on to the default branch and
    arms thirty seconds for the source, whatever the integer is. *)
Theorem page_show_integer_directive_arms_30 message w n page :
  not_from_self message ->
  directive message = PInt n ->
  msg_data message !! "page" = Some page ->
  py_truthy page = true ->
  ~ (clock w + inject_Z 30 < idle_next (self w))%Q ->
  let w' := exec (on_gui_page_show message) w in
  outcome (on_gui_page_show message) w = Return tt
  /\ interaction_without_idle (self w') = false
  /\ idle_next (self w') = (clock w + inject_Z 30)%Q
  /\ idle_checks w' = [idle_entry 30 (source_id message) w].
Proof.
  intros Hfrom Hd Hp Ht Hguard. cbn zeta.
  assert (H : is_True (directive message) = false) by now rewrite Hd.
  assert (E := page_show_third_branch message w Hfrom H).
  rewrite Hp, Ht, Hd in E. cbn [andb negb isinstance_bool] in E.
  unfold outcome, exec. rewrite E.
  rewrite start_idle_event_accepted by exact Hguard. cbn.
  repeat split.
  unfold idle_checks. cbn.
  apply (idle_checks_others_entry 30 (source_id message) w).
Qed.

(** The scenario of the specification on the code: a page shown with a
    timeout of 15 in a fresh skill.  Fifteen seconds later nothing is
    due; the close event comes after thirty. *)
Lemma show_with_timeout_closes_after_30 :
  let w := exec (on_gui_page_show show_with_timeout) (init_world 0) in
  List.map sch_when (idle_checks w) = [30%Z]
  /\ emitted (exec run_scheduler (elapse 15 w)) = []
  /\ emitted (exec run_scheduler (elapse 30 w))
     = [close_event (PStr "skill.weather")].
Proof. vm_compute. repeat split. Qed.

(** Without a page field the same message makes the handler raise. *)
Lemma show_timeout_without_page_raises :
  outcome (on_gui_page_show
             (mkMessage "gui.page.show"
                {[ "__from" := PStr "skill.weather"; "__idle" := PInt 15 ]}))
          (init_world 0)
  = Raise (KeyError "page").
Proof. reflexivity. Qed.

End NumericDirective.

(** ** [initialize] and [shutdown] *)

Section Lifecycle.

Lemma shutdown_raises_from_remove B w e :
  outcome (shutdown B) w = Raise e ->
  exists event h table, fst (bus_remove_of B event h table) = Raise e.
Proof.
  unfold outcome, shutdown, bind, bus_remove, host_call. cbn [fst snd].
  set (t0 := listeners w).
  destruct (bus_remove_of B "gui.page.show" h_on_gui_page_show t0)
    as [[[]|e1] t1] eqn:E1; cbn [fst snd listeners with_listeners].
  2:{ intros [= <-]. exists "gui.page.show", h_on_gui_page_show, t0.
      now rewrite E1. }
  destruct (bus_remove_of B "gui.page_interaction" h_on_gui_page_interaction t1)
    as [[[]|e2] t2] eqn:E2; cbn [fst snd listeners with_listeners].
  2:{ intros [= <-].
      exists "gui.page_interaction", h_on_gui_page_interaction, t1.
      now rewrite E2. }
  destruct (bus_remove_of B "mycroft.gui.screen.close" h_close_window_by_event
              t2) as [[[]|e3] t3] eqn:E3; cbn [fst snd listeners with_listeners].
  2:{ intros [= <-].
      exists "mycroft.gui.screen.close", h_close_window_by_event, t2.
      now rewrite E3. }
  intros H.
  exists "mycroft.gui.force.screenclose", h_close_window_by_force, t3.
  exact H.
Qed.

Lemma shutdown_returns_if_remove_does B :
  (forall event h table, fst (bus_remove_of B event h table) = Return tt) ->
  forall w, outcome (shutdown B) w = Return tt.
Proof.
  intros H w. destruct (outcome (shutdown B) w) as [[]|e] eqn:E; [reflexivity|].
  destruct (shutdown_raises_from_remove B w e E) as (event & h & table & R).
  rewrite H in R. discriminate R.
Qed.

Lemma listeners_only_frame {A} (m : M A) w :
  listeners_only m ->
  self (exec m w) = self w
  /\ clock (exec m w) = clock w
  /\ scheduled (exec m w) = scheduled w
  /\ emitted (exec m w) = emitted w.
Proof. intros H. rewrite (H w). now repeat split. Qed.

(** C9, as the code has it.  On a host that writes down the calls made on
    it, [initialize] makes seven registrations: [close_window_by_event]
    three times, [close_window_by_force] twice, the two page handlers once
    each; [shutdown] makes one [bus.remove] for each of the four handlers
    and nothing else.  On any host [initialize] and [shutdown], also run
    twice, emit nothing and leave the skill, the clock and the scheduler
    alone.  [shutdown] handles no exception: it raises what the first
    failing [bus.remove] raises, it raises nothing else, and it returns
    when [bus.remove] always does. *)
Theorem initialize_and_shutdown_registrations (B : Bus) w :
  listeners (exec (initialize recording_bus) (with_listeners [] w))
  = [ mkListener GuiRegisterHandler "mycroft.gui.screen.close"
                 h_close_window_by_event;
      mkListener AddEvent "mycroft.gui.screen.close" h_close_window_by_event;
      mkListener BusOn "mycroft.gui.screen.close" h_close_window_by_event;
      mkListener AddEvent "mycroft.gui.force.screenclose"
                 h_close_window_by_force;
      mkListener BusOn "mycroft.gui.force.screenclose"
                 h_close_window_by_force;
      mkListener BusOn "gui.page.show" h_on_gui_page_show;
      mkListener BusOn "gui.page_interaction" h_on_gui_page_interaction ]
  /\ listeners (exec (shutdown recording_bus) (with_listeners [] w))
     = [ mkListener BusRemove "gui.page.show" h_on_gui_page_show;
         mkListener BusRemove "gui.page_interaction"
                    h_on_gui_page_interaction;
         mkListener BusRemove "mycroft.gui.screen.close"
                    h_close_window_by_event;
         mkListener BusRemove "mycroft.gui.force.screenclose"
                    h_close_window_by_force ]
  /\ (forall h,
        registrations h (exec (initialize recording_bus) (with_listeners [] w))
        = match h with
          | h_close_window_by_event => 3
          | h_close_window_by_force => 2
          | h_on_gui_page_show => 1
          | h_on_gui_page_interaction => 1
          | h_close_current_window => 0
          end)
  /\ (self (exec (initialize B ;; initialize B) w) = self w
      /\ clock (exec (initialize B ;; initialize B) w) = clock w
      /\ scheduled (exec (initialize B ;; initialize B) w) = scheduled w
      /\ emitted (exec (initialize B ;; initialize B) w) = emitted w)
  /\ (self (exec (shutdown B ;; shutdown B) w) = self w
      /\ clock (exec (shutdown B ;; shutdown B) w) = clock w
      /\ scheduled (exec (shutdown B ;; shutdown B) w) = scheduled w
      /\ emitted (exec (shutdown B ;; shutdown B) w) = emitted w)
  /\ (forall e table,
        bus_remove_of B "gui.page.show" h_on_gui_page_show (listeners w)
        = (Raise e, table) ->
        shutdown B w = (Raise e, with_listeners table w))
  /\ (forall e,
        outcome (shutdown B) w = Raise e ->
        exists event h table, fst (bus_remove_of B event h table) = Raise e)
  /\ ((forall event h table,
         fst (bus_remove_of B event h table) = Return tt) ->
      outcome (shutdown B ;; shutdown B) w = Return tt).
Proof.
  split; [reflexivity|]. split; [reflexivity|].
  split; [intros []; reflexivity|].
  split.
  { apply listeners_only_frame. apply listeners_only_bind;
      [|intros _]; apply initialize_listeners_only. }
  split.
  { apply listeners_only_frame. apply listeners_only_bind;
      [|intros _]; apply shutdown_listeners_only. }
  split.
  { intros e table H. unfold shutdown, bind, bus_remove, host_call.
    now rewrite H. }
  split; [apply shutdown_raises_from_remove|].
  intros H. unfold outcome, bind.
  pose proof (shutdown_returns_if_remove_does B H w) as R1.
  unfold outcome in R1. destruct (shutdown B w) as [o w1]. cbn in R1. subst o.
  apply (shutdown_returns_if_remove_does B H w1).
Qed.

(** On a host after the event emitter of the bus client, one close request
    after [initialize] runs [close_window_by_event] twice, and three times
    after a second [initialize]; a second [shutdown] raises [KeyError]. *)
Lemma emitter_bus_lifecycle :
  emitted (exec (initialize emitter_bus ;; deliver screen_close)
                (init_world 0))
  = [close_event PNone; close_event PNone]
  /\ length (emitted (exec (initialize emitter_bus ;; initialize emitter_bus ;;
                            deliver screen_close) (init_world 0))) = 3
  /\ outcome (initialize emitter_bus ;; shutdown emitter_bus) (init_world 0)
     = Return tt
  /\ outcome (initialize emitter_bus ;; shutdown emitter_bus ;;
              shutdown emitter_bus) (init_world 0)
     = Raise (KeyError "on_gui_page_show").
Proof. vm_compute. repeat split. Qed.

End Lifecycle.

(** ** The theorems at concrete inputs *)

Section Instances.

(** C2 fails as stated: after an authoritative arm of 60 seconds an
    authoritative arm of 30 seconds is dropped; deadline and pending
    action stay those of the first call. *)
Lemma earlier_authoritative_arm_is_dropped :
  let w1 := exec (start_idle_event 60 false (PStr "a")) (init_world 0) in
  let w2 := exec (start_idle_event 30 false (PStr "b")) w1 in
  (clock w1 + inject_Z 30 < idle_next (self w1))%Q
  /\ w2 = w1
  /\ ~ (idle_next (self w2) == clock w1 + inject_Z 30)%Q
  /\ idle_checks w2 = [idle_entry 60 (PStr "a") (init_world 0)].
Proof.
  cbn zeta. split; [reflexivity|]. split; [reflexivity|].
  split; [vm_compute; discriminate | reflexivity].
Qed.

Lemma authoritative_arm_witness :
  ~ (clock (init_world 0) + inject_Z 30
     < idle_next (self (init_world 0)))%Q
  /\ idle_next (self (exec (start_idle_event 30 false (PStr "a"))
                           (init_world 0)))
     = (clock (init_world 0) + inject_Z 30)%Q.
Proof.
  split; [vm_compute; discriminate|].
  destruct (authoritative_arm_replaces_unless_earlier
              30 (PStr "a") (init_world 0)) as (_ & _ & H).
  apply H. vm_compute. discriminate.
Defined.

Lemma weak_arm_witness :
  (idle_next (self (init_world 0))
   <= clock (init_world 0) + inject_Z 30)%Q
  /\ idle_next (self (exec (start_idle_event 30 true (PStr "a"))
                           (init_world 0)))
     = idle_next (self (init_world 0)).
Proof.
  split; [vm_compute; discriminate|].
  destruct (weak_arm_keeps_deadline 30 (PStr "a") (init_world 0))
    as (_ & H).
  apply H. vm_compute. discriminate.
Defined.

Lemma at_most_one_witness :
  pending_idle (init_world 0) <= 1
  /\ Forall (fun w' => pending_idle w' <= 1)
            (timer_trace [Arm 30 false (PStr "a"); Elapse 10;
                          Arm 60 true (PStr "b"); Cancel;
                          Arm 15 false (PStr "c")]
                         (init_world 0)).
Proof.
  split; [vm_compute; lia|].
  apply (proj1 at_most_one_idle_check). vm_compute. lia.
Defined.

Lemma fire_witness :
  let e := idle_entry 30 (PStr "skill.weather") (init_world 0) in
  let w_fire := with_self (with_interaction_without_idle false)
                          (init_world 31) in
  ~ (clock (init_world 0) + inject_Z 30
     < idle_next (self (init_world 0)))%Q
  /\ e ∈ idle_checks (exec (start_idle_event 30 false (PStr "skill.weather"))
                           (init_world 0))
  /\ fire e w_fire
     = (Return tt,
        with_emitted [close_event (PStr "skill.weather")] w_fire)
  /\ fire e (init_world 31) = (Return tt, init_world 31).
Proof.
  cbn zeta.
  assert (Hguard : ~ (clock (init_world 0) + inject_Z 30
                      < idle_next (self (init_world 0)))%Q)
    by (vm_compute; discriminate).
  assert (He : idle_entry 30 (PStr "skill.weather") (init_world 0)
               ∈ idle_checks
                   (exec (start_idle_event 30 false (PStr "skill.weather"))
                         (init_world 0)))
    by (apply list_elem_of_singleton; reflexivity).
  split; [exact Hguard|]. split; [exact He|]. split.
  - exact (fire_reads_suppression_when_it_runs
             30 false (PStr "skill.weather") (init_world 0) _
             (with_self (with_interaction_without_idle false)
                        (init_world 31))
             Hguard He).
  - exact (fire_reads_suppression_when_it_runs
             30 false (PStr "skill.weather") (init_world 0) _
             (init_world 31) Hguard He).
Defined.

Lemma force_close_witness :
  msg_data force_close_clock !! "skill_id" = Some (PStr "clock")
  /\ close_window_by_force force_close_clock (init_world 0)
     = (Return tt,
        with_emitted [close_event (PStr "clock")] (init_world 0)).
Proof.
  split; [reflexivity|].
  exact (proj2 explicit_and_force_close_emit_once
               force_close_clock (init_world 0) (PStr "clock") eq_refl).
Defined.

Lemma force_close_bare_witness :
  msg_data force_close_bare !! "skill_id" = None
  /\ close_window_by_force force_close_bare (init_world 0)
     = (Raise (KeyError "skill_id"), init_world 0).
Proof.
  split; [reflexivity|].
  apply force_close_without_skill_id_raises. reflexivity.
Defined.

Lemma integer_directive_witness :
  not_from_self show_with_timeout
  /\ directive show_with_timeout = PInt 15
  /\ msg_data show_with_timeout !! "page" = Some (PStr "weather")
  /\ py_truthy (PStr "weather") = true
  /\ ~ (clock (init_world 0) + inject_Z 30
        < idle_next (self (init_world 0)))%Q
  /\ idle_checks (exec (on_gui_page_show show_with_timeout) (init_world 0))
     = [idle_entry 30 (PStr "skill.weather") (init_world 0)].
Proof.
  do 4 (split; [reflexivity|]).
  split; [vm_compute; discriminate|].
  apply (page_show_integer_directive_arms_30
           show_with_timeout (init_world 0) 15 (PStr "weather")).
  - reflexivity.
  - reflexivity.
  - reflexivity.
  - reflexivity.
  - vm_compute. discriminate.
Defined.

(** C4 fails as stated.  With a page and no directive the handler arms
    the timer; without a page field it raises [KeyError]; with a [__from]
    that is a number it raises [TypeError]. *)
Lemma page_show_is_not_always_a_no_op :
  (not_from_self show_plain
   /\ msg_data show_plain !! "__idle" = None
   /\ msg_data show_plain !! "page" = Some (PStr "weather")
   /\ ~ timer_unchanged (init_world 0)
          (exec (on_gui_page_show show_plain) (init_world 0)))
  /\ (not_from_self show_without_page
      /\ msg_data show_without_page !! "__idle" = None
      /\ msg_data show_without_page !! "page" = None
      /\ outcome (on_gui_page_show show_without_page) (init_world 0)
         = Raise (KeyError "page"))
  /\ (msg_data show_from_number !! "__from" = Some (PInt 5)
      /\ msg_data show_from_number !! "__idle" = None
      /\ outcome (on_gui_page_show show_from_number) (init_world 0)
         = Raise (TypeError "argument is not iterable")).
Proof.
  split; [|split].
  - split; [reflexivity|]. split; [reflexivity|]. split; [reflexivity|].
    intros [_ H]. vm_compute in H. discriminate H.
  - repeat split.
  - repeat split.
Qed.

(** C5 fails as stated: with the directive [False] and a page the
    handler neither clears the flag nor arms the timer. *)
Lemma idle_false_does_not_arm :
  let w' := exec (on_gui_page_show show_idle_false) (init_world 0) in
  not_from_self show_idle_false
  /\ directive show_idle_false = PBool false
  /\ msg_data show_idle_false !! "page" = Some (PStr "weather")
  /\ interaction_without_idle (self w') = true
  /\ idle_checks w' = []
  /\ timer_unchanged (init_world 0) w'.
Proof. cbn zeta. repeat split. Qed.

Lemma default_arm_witness :
  not_from_self show_plain
  /\ msg_data show_plain !! "page" = Some (PStr "weather")
  /\ py_truthy (PStr "weather") = true
  /\ isinstance_bool (directive show_plain) = false
  /\ positive_int (directive show_plain) = false
  /\ ~ (clock (init_world 0) + inject_Z 30
        < idle_next (self (init_world 0)))%Q
  /\ idle_checks (exec (on_gui_page_show show_plain) (init_world 0))
     = [idle_entry 30 (PStr "skill.weather") (init_world 0)].
Proof.
  do 5 (split; [reflexivity|]).
  split; [vm_compute; discriminate|].
  destruct (page_show_default_arms_30 show_plain (init_world 0)
              eq_refl (PStr "weather") eq_refl eq_refl) as [H _].
  destruct (H eq_refl eq_refl) as [_ H'].
  apply H'. vm_compute. discriminate.
Defined.

(** C9 fails as stated: [initialize] registers [close_window_by_event]
    three times and [close_window_by_force] twice. *)
Lemma initialize_registers_close_thrice :
  registrations h_close_window_by_event
                (exec (initialize recording_bus) (init_world 0)) = 3
  /\ registrations h_close_window_by_force
                   (exec (initialize recording_bus) (init_world 0)) = 2.
Proof. split; reflexivity. Qed.

(** After [initialize] and one [shutdown] on [emitter_bus], the first
    [bus.remove] of a second [shutdown] raises, and so does [shutdown]. *)
Lemma shutdown_twice_witness :
  let w := exec (initialize emitter_bus ;; shutdown emitter_bus)
                (init_world 0) in
  bus_remove_of emitter_bus "gui.page.show" h_on_gui_page_show (listeners w)
  = (Raise (KeyError "on_gui_page_show"), listeners w)
  /\ outcome (shutdown emitter_bus) w = Raise (KeyError "on_gui_page_show").
Proof.
  cbn zeta. split; [reflexivity|].
  destruct (initialize_and_shutdown_registrations emitter_bus
              (exec (initialize emitter_bus ;; shutdown emitter_bus)
                    (init_world 0)))
    as (_ & _ & _ & _ & _ & H & _).
  unfold outcome.
  rewrite (H (KeyError "on_gui_page_show")
             (listeners (exec (initialize emitter_bus ;; shutdown emitter_bus)
                              (init_world 0))) eq_refl).
  reflexivity.
Defined.

End Instances.

(** ** The methods as sequences of writes *)

Section Touches.

(** The six ways [on_gui_page_show] can go. *)
Lemma page_show_cases (P : Outcome unit * World -> Prop) m w :
  (forall e,
      py_in "BigscreenPlatform" (source_id m) = inl e -> P (Raise e, w)) ->
  (py_in "BigscreenPlatform" (source_id m) = inr true -> P (Return tt, w)) ->
  (not_from_self m -> directive m = PBool true ->
   P (Return tt,
      exec (override (Some m))
        (exec cancel_idle_event
           (with_self (with_interaction_without_idle true)
              (with_self (with_has_show_page true) w))))) ->
  (not_from_self m -> is_True (directive m) = false ->
   msg_data m !! "page" = None ->
   P (Raise (KeyError "page"), with_self (with_has_show_page true) w)) ->
  (forall page,
      not_from_self m -> is_True (directive m) = false ->
      msg_data m !! "page" = Some page ->
      py_truthy page && negb (isinstance_bool (directive m)) = false ->
      P (Return tt, with_self (with_has_show_page true) w)) ->
  (forall page,
      not_from_self m -> is_True (directive m) = false ->
      msg_data m !! "page" = Some page ->
      py_truthy page && negb (isinstance_bool (directive m)) = true ->
      P (start_idle_event 30 false (source_id m)
           (with_self (with_interaction_without_idle false)
              (with_self (with_has_show_page true) w)))) ->
  P (on_gui_page_show m w).
Proof.
  intros Herr Hself Htrue Hnopage Hskip Harm.
  destruct (py_in "BigscreenPlatform" (source_id m)) as [e|[|]] eqn:Hin.
  - replace (on_gui_page_show m w) with (@Raise unit e, w); [now apply Herr|].
    unfold on_gui_page_show, bind. fold (source_id m). now rewrite Hin.
  - rewrite page_show_from_self by exact Hin. now apply Hself.
  - destruct (is_True (directive m)) eqn:Ht.
    + assert (Hd : directive m = PBool true)
        by (destruct (directive m) as [|[]| | | | |]; cbn in Ht; congruence).
      rewrite (page_show_indefinite m w Hin Hd). now apply Htrue.
    + rewrite (page_show_third_branch m w Hin Ht).
      destruct (msg_data m !! "page") as [page|] eqn:Hp; [|now apply Hnopage].
      destruct (py_truthy page && negb (isinstance_bool (directive m))) eqn:E.
      * now apply (Harm page).
      * now apply (Hskip page).
Qed.

(** The two ways [on_gui_page_interaction] can go. *)
Lemma page_interaction_world m w :
  on_gui_page_interaction m w =
    let sid := dict_get (msg_data m) "skill_id" in
    if interaction_without_idle (self w)
    then (Return tt, with_self (with_interaction_skill_id sid) w)
    else start_idle_event 30 false sid
           (with_self (with_interaction_skill_id sid) w).
Proof.
  unfold on_gui_page_interaction, bind, set_self, get_self. cbn.
  destruct (interaction_without_idle (self w)); reflexivity.
Qed.

Lemma start_idle_event_exec offset weak skid w :
  start_idle_event offset weak skid w
  = (Return tt, exec (start_idle_event offset weak skid) w).
Proof.
  pose proof (start_idle_event_returns offset skid weak w) as H.
  unfold outcome, exec in *.
  destruct (start_idle_event offset weak skid w) as [o w']. cbn in *.
  now subst o.
Qed.

Lemma invoke_touch h m w : touch w (exec (invoke h m) w).
Proof.
  destruct h; cbn [invoke]; unfold exec.
  - rewrite close_window_by_event_world. cbn [snd].
    eapply touch_then; [apply (touch_flag false)|].
    exact (touch_emit _ (with_self (with_interaction_without_idle false) w)).
  - unfold close_window_by_force, bind, dict_item.
    destruct (msg_data m !! "skill_id"); cbn; [apply touch_emit|apply touch_none].
  - apply (page_show_cases (fun r => touch w (snd r))); cbn [snd]; intros.
    + apply touch_none.
    + apply touch_none.
    + eapply touch_then; [apply touch_shown|].
      eapply touch_then; [apply (touch_flag true)|].
      eapply touch_then; [apply touch_cancel|]. now apply touch_memo.
    + apply touch_shown.
    + apply touch_shown.
    + eapply touch_then; [apply touch_shown|].
      eapply touch_then; [apply (touch_flag false)|].
      rewrite start_idle_event_exec. apply touch_arm.
  - rewrite page_interaction_world. cbn zeta.
    destruct (interaction_without_idle (self w)); cbn [snd].
    + apply touch_source.
    + eapply touch_then; [apply touch_source|].
      rewrite start_idle_event_exec. apply touch_arm.
  - rewrite close_current_window_world.
    destruct (interaction_without_idle (self w)); cbn [snd];
      [apply touch_none|apply touch_emit].
Qed.

Lemma fire_all_touch es w : touch w (exec (fire_all es) w).
Proof.
  revert w. induction es as [|e es IH]; intros w; [apply touch_none|].
  cbn [fire_all]. unfold exec, bind.
  pose proof (invoke_touch (sch_handler e)
                (mkMessage (sch_name e) (sch_data e)) w) as H.
  unfold exec, fire in *.
  destruct (invoke (sch_handler e) _ w) as [[[]|x] w1]; cbn [snd] in *.
  - eapply touch_then; [exact H|apply IH].
  - exact H.
Qed.

Lemma run_scheduler_touch w : touch w (exec run_scheduler w).
Proof.
  unfold exec, run_scheduler.
  eapply touch_then; [apply touch_drop|apply fire_all_touch].
Qed.

(** A property kept by every write and by time passing holds in every
    reachable world. *)
Lemma reachable_by_touch (P : World -> Prop) :
  (forall t0, (0 <= t0)%Q -> P (init_world t0)) ->
  (forall w w', touch w w' -> P w -> P w') ->
  (forall d w, (0 <= d)%Q -> P w -> P (elapse d w)) ->
  forall w, reachable w -> P w.
Proof.
  intros Hinit Htouch Helapse w.
  induction 1 as [t0 H0|B w _ IH|B w _ IH|h m w _ IH|w _ IH|d w Hd _ IH].
  - now apply Hinit.
  - revert IH. apply Htouch. rewrite (initialize_listeners_only B w).
    apply touch_listeners.
  - revert IH. apply Htouch. rewrite (shutdown_listeners_only B w).
    apply touch_listeners.
  - revert IH. apply Htouch. apply invoke_touch.
  - revert IH. apply Htouch. apply run_scheduler_touch.
  - now apply Helapse.
Qed.

End Touches.

(** ** Messages without a default arm *)

Section NoDefaultArm.

Lemma page_show_membership_raises m w e :
  py_in "BigscreenPlatform" (source_id m) = inl e ->
  on_gui_page_show m w = (Raise e, w).
Proof.
  intros H. unfold on_gui_page_show, bind. fold (source_id m).
  now rewrite H.
Qed.

(** C4, as the code has it.  Take a message that the handler does not
    take for its own and whose directive is neither [True] nor a positive
    integer.  The handler contains no exception: it raises what the
    membership test on [__from] raises, leaving the world as it is, and it
    raises [KeyError] when the [page] field is missing, having written
    [has_show_page] only.  With a [page] field it returns; it changes
    nothing but [has_show_page] when the page is empty or the directive is
    [False].  In all these cases the deadline, the scheduler, the flag, the
    bus and the clock are as before. *)
Theorem page_show_no_timer_change_cases message w :
  not_own message ->
  is_True (directive message) = false ->
  positive_int (directive message) = false ->
  (forall e,
      py_in "BigscreenPlatform" (source_id message) = inl e ->
      on_gui_page_show message w = (Raise e, w))
  /\ (not_from_self message ->
      msg_data message !! "page" = None ->
      on_gui_page_show message w
      = (Raise (KeyError "page"), with_self (with_has_show_page true) w))
  /\ (forall page,
        not_from_self message ->
        msg_data message !! "page" = Some page ->
        outcome (on_gui_page_show message) w = Return tt
        /\ (py_truthy page = false \/ directive message = PBool false ->
            on_gui_page_show message w
            = (Return tt, with_self (with_has_show_page true) w)))
  /\ (msg_data message !! "page" = None
      \/ (exists page,
            msg_data message !! "page" = Some page /\ py_truthy page = false)
      \/ directive message = PBool false
      \/ (exists e, py_in "BigscreenPlatform" (source_id message) = inl e) ->
      let w' := exec (on_gui_page_show message) w in
      timer_unchanged w w'
      /\ interaction_without_idle (self w')
         = interaction_without_idle (self w)
      /\ emitted w' = emitted w
      /\ clock w' = clock w).
Proof.
  intros _ Ht _. split; [|split; [|split]].
  - intros e. apply page_show_membership_raises.
  - intros Hfrom Hp. now apply page_show_missing_page_raises.
  - intros page Hfrom Hp. unfold outcome.
    rewrite (page_show_third_branch message w Hfrom Ht), Hp. split.
    + destruct (py_truthy page && negb (isinstance_bool (directive message)));
        [|reflexivity].
      apply start_idle_event_returns.
    + intros [Hf|Hb].
      * now rewrite Hf.
      * rewrite Hb. cbn. now rewrite andb_false_r.
  - intros Hcase. cbn zeta. unfold exec.
    apply (page_show_cases
             (fun r =>
                timer_unchanged w (snd r)
                /\ interaction_without_idle (self (snd r))
                   = interaction_without_idle (self w)
                /\ emitted (snd r) = emitted w
                /\ clock (snd r) = clock w));
      cbn [snd].
    + intros e _. now repeat split.
    + intros _. now repeat split.
    + intros _ Hd. rewrite Hd in Ht. discriminate Ht.
    + intros _ _ _. now repeat split.
    + intros page _ _ _ _. now repeat split.
    + intros page Hfrom _ Hp Harm. exfalso.
      apply andb_true_iff in Harm. destruct Harm as [Hy Hn].
      destruct Hcase as [Hc|[(page' & Hc & Hf)|[Hc|(e & Hc)]]].
      * congruence.
      * congruence.
      * rewrite Hc in Hn. discriminate Hn.
      * unfold not_from_self in Hfrom. congruence.
Qed.

Lemma no_timer_change_witness :
  not_own show_without_page
  /\ is_True (directive show_without_page) = false
  /\ positive_int (directive show_without_page) = false
  /\ msg_data show_without_page !! "page" = None
  /\ on_gui_page_show show_without_page page_on_show
     = (Raise (KeyError "page"),
        with_self (with_has_show_page true) page_on_show)
  /\ timer_unchanged page_on_show
       (exec (on_gui_page_show show_without_page) page_on_show).
Proof.
  assert (Hown : not_own show_without_page) by (intros H; discriminate H).
  destruct (page_show_no_timer_change_cases show_without_page page_on_show
              Hown eq_refl eq_refl) as (_ & H2 & _ & H4).
  split; [exact Hown|]. do 3 (split; [reflexivity|]).
  split; [exact (H2 eq_refl eq_refl)|].
  exact (proj1 (H4 (or_introl eq_refl))).
Defined.

End NoDefaultArm.

(** ** What the writes keep *)

Section Frames.

(** What a call of [start_idle_event] can change. *)
Lemma start_idle_event_frame offset weak skid w :
  let w' := exec (start_idle_event offset weak skid) w in
  emitted w' = emitted w
  /\ listeners w' = listeners w
  /\ has_show_page (self w') = has_show_page (self w)
  /\ override_idle (self w') = override_idle (self w)
  /\ override_set_time (self w') = override_set_time (self w)
  /\ interaction_without_idle (self w') = interaction_without_idle (self w)
  /\ interaction_skill_id (self w') = interaction_skill_id (self w)
  /\ (clock w' = clock w \/ clock w' = (clock w + (1 # 2))%Q)
  /\ (scheduled w' = scheduled w
      \/ scheduled w' = other_entries w ++ [idle_entry offset skid w]).
Proof.
  cbn zeta. unfold exec.
  destruct (Qltb (clock w + inject_Z offset) (idle_next (self w))) eqn:E.
  - apply Qltb_lt in E. rewrite start_idle_event_rejected by exact E.
    cbn. repeat split; auto.
  - apply Qltb_ge in E. rewrite start_idle_event_accepted by exact E.
    cbn. destruct weak; repeat split; auto.
Qed.

Lemma touch_has_show_page w w' :
  touch w w' ->
  has_show_page (self w) = true -> has_show_page (self w') = true.
Proof.
  induction 1 as [w|w1 w2 w3 _ IH1 _ IH2|w|b w|v w|m w _ _|w|skid w|v w|f w|l w];
    intros H; auto.
  destruct (start_idle_event_frame 30 false skid w) as (_ & _ & E & _).
  cbn zeta in E. now rewrite E.
Qed.

Lemma touch_emitted w w' : touch w w' -> emitted w `prefix_of` emitted w'.
Proof.
  induction 1 as [w|w1 w2 w3 _ IH1 _ IH2|w|b w|v w|m w _ _|w|skid w|v w|f w|l w];
    try reflexivity.
  - now transitivity (emitted w2).
  - destruct (start_idle_event_frame 30 false skid w) as (E & _).
    cbn zeta in E. now rewrite E.
  - now exists [close_event v].
Qed.

Lemma touch_clock w w' : touch w w' -> (clock w <= clock w')%Q.
Proof.
  induction 1 as [w|w1 w2 w3 _ IH1 _ IH2|w|b w|v w|m w _ _|w|skid w|v w|f w|l w];
    try apply Qle_refl.
  - now apply Qle_trans with (clock w2).
  - destruct (start_idle_event_frame 30 false skid w)
      as (_ & _ & _ & _ & _ & _ & _ & [E|E] & _); cbn zeta in E; rewrite E; lra.
Qed.

Lemma is_idle_check_entry skid w : is_idle_check (idle_entry 30 skid w).
Proof.
  unfold is_idle_check, idle_entry. cbn. repeat split.
  rewrite lookup_singleton_eq. now exists skid.
Qed.

Lemma Forall_other_entries (P : Scheduled -> Prop) w :
  Forall P (scheduled w) -> Forall P (other_entries w).
Proof.
  unfold other_entries. intros H.
  induction H as [|e l He _ IH]; [constructor|].
  rewrite filter_cons. destruct (decide (sch_name e <> "IdleCheck"));
    [now constructor|exact IH].
Qed.

Lemma Forall_List_filter {A} (P : A -> Prop) f l :
  Forall P l -> Forall P (List.filter f l).
Proof.
  induction 1 as [|x l Hx _ IH]; cbn; [constructor|].
  destruct (f x); [now constructor|exact IH].
Qed.

Lemma host_inv_frame w w' :
  scheduled w' = scheduled w -> emitted w' = emitted w ->
  host_inv w -> host_inv w'.
Proof. unfold host_inv. now intros -> ->. Qed.

Lemma touch_host_inv w w' : touch w w' -> host_inv w -> host_inv w'.
Proof.
  induction 1 as [w|w1 w2 w3 _ IH1 _ IH2|w|b w|v w|m w _ _|w|skid w|v w|f w|l w];
    intros Hw; try (revert Hw; apply host_inv_frame; reflexivity).
  - auto.
  - destruct Hw as [Hs He]. split; [|exact He].
    unfold exec. rewrite cancel_idle_event_world.
    now apply Forall_other_entries.
  - destruct Hw as [Hs He].
    destruct (start_idle_event_frame 30 false skid w)
      as (E & _ & _ & _ & _ & _ & _ & _ & [S|S]); cbn zeta in *.
    + split; [now rewrite S|now rewrite E].
    + split; [|now rewrite E]. rewrite S. apply Forall_app. split.
      * now apply Forall_other_entries.
      * constructor; [apply is_idle_check_entry|constructor].
  - destruct Hw as [Hs He]. split; [exact Hs|]. cbn. apply Forall_app.
    split; [exact He|]. constructor; [now exists v|constructor].
  - destruct Hw as [Hs He]. split; [|exact He]. cbn.
    now apply Forall_List_filter.
Qed.



Lemma host_step_touch s w :
  match s with StepElapse _ => True | _ => touch w (host_step s w) end.
Proof.
  destruct s; cbn [host_step]; auto.
  - rewrite (initialize_listeners_only B w). apply touch_listeners.
  - rewrite (shutdown_listeners_only B w). apply touch_listeners.
  - apply invoke_touch.
  - apply run_scheduler_touch.
Qed.

End Frames.

(** ** Invariants of the running skill *)

Section RunningSkill.

Lemma host_run_has_show_page steps w :
  has_show_page (self w) = true ->
  has_show_page (self (host_run steps w)) = true.
Proof.
  revert w. induction steps as [|s steps IH]; intros w H; [exact H|].
  cbn [host_run fold_left]. apply IH.
  pose proof (host_step_touch s w) as T. destruct s; try exact H;
    now apply (touch_has_show_page _ _ T).
Qed.

Lemma host_run_emitted steps w :
  emitted w `prefix_of` emitted (host_run steps w).
Proof.
  revert w. induction steps as [|s steps IH]; intros w; [reflexivity|].
  cbn [host_run fold_left]. transitivity (emitted (host_step s w)); [|apply IH].
  pose proof (host_step_touch s w) as T. destruct s; try reflexivity;
    now apply touch_emitted.
Qed.

Lemma page_show_emits_nothing m w :
  emitted (exec (on_gui_page_show m) w) = emitted w.
Proof.
  unfold exec.
  apply (page_show_cases (fun r => emitted (snd r) = emitted w));
    intros; try reflexivity.
  rewrite start_idle_event_exec. cbn [snd].
  now destruct (start_idle_event_frame 30 false (source_id m)
                  (with_self (with_interaction_without_idle false)
                     (with_self (with_has_show_page true) w))) as (E & _).
Qed.

Lemma page_interaction_emits_nothing m w :
  emitted (exec (on_gui_page_interaction m) w) = emitted w.
Proof.
  unfold exec. rewrite page_interaction_world. cbn zeta.
  destruct (interaction_without_idle (self w)); [reflexivity|].
  rewrite start_idle_event_exec. cbn [snd].
  now destruct (start_idle_event_frame 30 false
                  (dict_get (msg_data m) "skill_id")
                  (with_self (with_interaction_skill_id
                                (dict_get (msg_data m) "skill_id")) w))
    as (E & _).
Qed.

Lemma fire_all_idle_checks_return es w :
  Forall is_idle_check es -> outcome (fire_all es) w = Return tt.
Proof.
  intros H. revert w. induction H as [|e es He _ IH]; intros w; [reflexivity|].
  destruct He as (_ & Hh & _). unfold outcome in *. cbn [fire_all].
  unfold bind, fire. rewrite Hh. cbn [invoke].
  rewrite close_current_window_world. apply IH.
Qed.

Lemma idle_checks_all w :
  Forall is_idle_check (scheduled w) -> idle_checks w = scheduled w.
Proof.
  unfold idle_checks. intros H. induction H as [|e l He _ IH]; [reflexivity|].
  rewrite filter_cons. destruct (decide (sch_name e = "IdleCheck")) as [_|N].
  - now rewrite IH.
  - destruct He as (Hn & _). contradiction.
Qed.

Lemma reachable_host_inv w : reachable w -> host_inv w.
Proof.
  apply reachable_by_touch.
  - intros t0 _. split; constructor.
  - apply touch_host_inv.
  - intros d w0 _ H. exact H.
Qed.

(** X7.  In every world the skill can reach the clock is not negative, the
    recorded deadline is at most thirty seconds ahead and at most one
    [IdleCheck] is pending; so the guard of [start_idle_event] never
    rejects the arm of thirty seconds that the handlers make: after it
    exactly the new action is pending. *)
Theorem reachable_timer_bounds w :
  reachable w ->
  pending_idle w <= 1
  /\ (0 <= clock w)%Q
  /\ (idle_next (self w) <= clock w + inject_Z 30)%Q
  /\ forall skid,
       idle_checks (exec (start_idle_event 30 false skid) w)
       = [idle_entry 30 skid w].
Proof.
  intros H. destruct (reachable_timer_inv w H) as (Hc & Hn & Hp).
  repeat split; auto.
  intros skid. apply start_idle_event_idle_checks. now apply Qle_not_lt.
Qed.

(** X8.  In every reachable world the scheduler holds nothing but idle
    checks made by [start_idle_event] (name [IdleCheck], handler
    [close_current_window], delay 30, data with [skill_id]), at most one of
    them, and the bus has seen nothing but close events; so a pass of the
    scheduler never raises. *)
Theorem reachable_scheduler_and_bus w :
  reachable w ->
  Forall is_idle_check (scheduled w)
  /\ Forall is_close_event (emitted w)
  /\ length (scheduled w) <= 1
  /\ outcome run_scheduler w = Return tt.
Proof.
  intros H. destruct (reachable_host_inv w H) as [Hs He].
  destruct (reachable_timer_inv w H) as (_ & _ & Hp).
  split; [exact Hs|]. split; [exact He|]. split.
  - unfold pending_idle in Hp. now rewrite idle_checks_all in Hp.
  - unfold outcome, run_scheduler. apply fire_all_idle_checks_return.
    now apply Forall_List_filter.
Qed.


(** X10.  [has_show_page] is set by every page-shown message of another
    skill, whether the handler then returns or raises, and nothing the host
    can do resets it. *)
Theorem has_show_page_is_never_reset :
  (forall m w,
      not_from_self m ->
      has_show_page (self (exec (on_gui_page_show m) w)) = true)
  /\ (forall steps w,
        has_show_page (self w) = true ->
        has_show_page (self (host_run steps w)) = true).
Proof.
  split; [|apply host_run_has_show_page].
  intros m w Hfrom. unfold exec.
  apply (page_show_cases
           (fun r => has_show_page (self (snd r)) = true));
    intros; try reflexivity; try (unfold not_from_self in *; congruence).
  rewrite start_idle_event_exec. cbn [snd].
  now destruct (start_idle_event_frame 30 false (source_id m)
                  (with_self (with_interaction_without_idle false)
                     (with_self (with_has_show_page true) w)))
    as (_ & _ & E & _).
Qed.

(** X11.  The skill only ever adds to what it has emitted.  One call of a
    handler emits at most one message, a close event; the two page handlers
    emit none. *)
Theorem bus_log_only_grows :
  (forall steps w, emitted w `prefix_of` emitted (host_run steps w))
  /\ (forall h m w,
        exists l,
          emitted (exec (invoke h m) w) = emitted w ++ l
          /\ length l <= 1
          /\ Forall is_close_event l
          /\ (h = h_on_gui_page_show \/ h = h_on_gui_page_interaction ->
              l = [])).
Proof.
  split; [apply host_run_emitted|].
  assert (one : forall v, Forall is_close_event [close_event v])
    by (intros v; constructor; [now exists v|constructor]).
  intros h m w. destruct h; cbn [invoke].
  - exists [close_event (interaction_skill_id (self w))].
    split; [reflexivity|]. split; [cbn; lia|]. split; [apply one|].
    intros [?|?]; discriminate.
  - unfold exec, close_window_by_force, bind, dict_item.
    destruct (msg_data m !! "skill_id") as [sid|].
    + exists [close_event sid]. split; [reflexivity|]. split; [cbn; lia|].
      split; [apply one|]. intros [?|?]; discriminate.
    + exists []. cbn. rewrite app_nil_r. repeat split; auto.
  - exists []. rewrite page_show_emits_nothing, app_nil_r. repeat split; auto.
  - exists []. rewrite page_interaction_emits_nothing, app_nil_r.
    repeat split; auto.
  - unfold exec. rewrite close_current_window_world.
    destruct (interaction_without_idle (self w)); cbn [snd].
    + exists []. rewrite app_nil_r. repeat split; auto.
    + exists [close_event (dict_get (msg_data m) "skill_id")].
      split; [reflexivity|]. split; [cbn; lia|]. split; [apply one|].
      intros [?|?]; discriminate.
Qed.

End RunningSkill.

(** ** Substrings *)

Section Substrings.

Lemma append_cons c (a b : string) :
  (String c a ++ b)%string = String c (a ++ b)%string.
Proof. reflexivity. Qed.

Lemma append_empty (b : string) : ("" ++ b)%string = b.
Proof. reflexivity. Qed.

Lemma prefix_append n b : String.prefix n (n ++ b)%string = true.
Proof.
  induction n as [|c n IH].
  - rewrite append_empty. now destruct b.
  - rewrite append_cons. cbn [String.prefix].
    destruct (Ascii.ascii_dec c c); [exact IH|congruence].
Qed.

Lemma prefix_inv n h :
  String.prefix n h = true -> exists b, h = (n ++ b)%string.
Proof.
  revert h. induction n as [|c n IH]; intros h H; [now exists h|].
  destruct h as [|c' h]; [discriminate|]. cbn [String.prefix] in H.
  destruct (Ascii.ascii_dec c c') as [->|]; [|discriminate].
  destruct (IH h H) as [b ->]. now exists b.
Qed.

(** [str_contains] is the substring test. *)
Lemma str_contains_spec n h :
  str_contains n h = true <-> exists a b, h = (a ++ n ++ b)%string.
Proof.
  split.
  - induction h as [|c h IH]; cbn [str_contains]; intros H;
      apply orb_true_iff in H; destruct H as [H|H].
    + apply prefix_inv in H. destruct H as [b ->]. now exists ""%string, b.
    + discriminate.
    + apply prefix_inv in H. destruct H as [b ->]. now exists ""%string, b.
    + destruct (IH H) as (a & b & ->). now exists (String c a), b.
  - intros (a & b & ->). induction a as [|c a IH].
    + rewrite append_empty.
      destruct (n ++ b)%string eqn:E; cbn [str_contains];
        rewrite <- E, prefix_append; reflexivity.
    + rewrite append_cons. cbn [str_contains]. rewrite IH. apply orb_true_r.
Qed.

End Substrings.

(** ** The handlers one by one and in sequence *)

Section Handlers.

(** The world after the default branch of [on_gui_page_show]. *)
Lemma page_show_default_world m w page :
  not_from_self m ->
  msg_data m !! "page" = Some page ->
  py_truthy page = true ->
  isinstance_bool (directive m) = false ->
  ~ (clock w + inject_Z 30 < idle_next (self w))%Q ->
  on_gui_page_show m w =
    (Return tt,
     mkWorld
       (mkSkill (override_idle (self w)) false (interaction_skill_id (self w))
                (clock w + inject_Z 30)%Q (override_set_time (self w)) true)
       (clock w + (1 # 2))%Q
       (other_entries w ++ [idle_entry 30 (source_id m) w])
       (emitted w) (listeners w)).
Proof.
  intros Hfrom Hp Ht Hb Hg.
  assert (H : is_True (directive m) = false)
    by (destruct (directive m); cbn in *; congruence).
  rewrite (page_show_third_branch m w Hfrom H), Hp, Ht, Hb. cbn [andb negb].
  now rewrite start_idle_event_accepted by exact Hg.
Qed.

(** X1.  [on_gui_page_interaction] never raises and emits nothing.  It
    always records the [skill_id] of the message ([None] when the key is
    missing) and leaves the flag alone.  With the flag set it does nothing
    else; with the flag clear it arms thirty seconds for that skill. *)
Theorem page_interaction_records_and_rearms m w :
  let sid := dict_get (msg_data m) "skill_id" in
  let w' := exec (on_gui_page_interaction m) w in
  outcome (on_gui_page_interaction m) w = Return tt
  /\ interaction_skill_id (self w') = sid
  /\ interaction_without_idle (self w')
     = interaction_without_idle (self w)
  /\ emitted w' = emitted w
  /\ (interaction_without_idle (self w) = true ->
      w' = with_self (with_interaction_skill_id sid) w)
  /\ (interaction_without_idle (self w) = false ->
      ~ (clock w + inject_Z 30 < idle_next (self w))%Q ->
      idle_next (self w') = (clock w + inject_Z 30)%Q
      /\ idle_checks w' = [idle_entry 30 sid w]).
Proof.
  cbn zeta. unfold outcome, exec. rewrite page_interaction_world. cbn zeta.
  set (sid := dict_get (msg_data m) "skill_id").
  set (w1 := with_self (with_interaction_skill_id sid) w).
  destruct (interaction_without_idle (self w)) eqn:F.
  - cbn. repeat split; auto; discriminate.
  - rewrite start_idle_event_exec. cbn [fst snd].
    destruct (start_idle_event_frame 30 false sid w1)
      as (Ee & _ & _ & _ & _ & Ef & Es & _). cbn zeta in *.
    split; [reflexivity|]. split; [exact Es|]. split; [now rewrite Ef|].
    split; [exact Ee|]. split; [discriminate|].
    intros _ Hg. split.
    + unfold exec. now rewrite (start_idle_event_accepted 30 sid false w1).
    + exact (start_idle_event_idle_checks 30 sid false w1 Hg).
Qed.

(** X2.  A page-shown message whose [__from] string holds
    [BigscreenPlatform] anywhere is ignored: the handler returns and leaves
    the world as it is.  A message whose [__from] string does not hold it
    counts as coming from another skill. *)
Theorem page_show_of_own_skill_is_ignored m w s :
  msg_data m !! "__from" = Some (PStr s) ->
  ((exists a b, s = (a ++ "BigscreenPlatform" ++ b)%string) ->
   on_gui_page_show m w = (Return tt, w))
  /\ (~ (exists a b, s = (a ++ "BigscreenPlatform" ++ b)%string) ->
      not_from_self m).
Proof.
  intros Hs.
  assert (E : source_id m = PStr s)
    by (unfold source_id, dict_get_default; now rewrite Hs).
  split.
  - intros H. apply str_contains_spec in H.
    apply page_show_from_self. rewrite E. cbn [py_in]. now rewrite H.
  - intros H. unfold not_from_self. rewrite E. cbn [py_in].
    destruct (str_contains "BigscreenPlatform" s) eqn:C; [|reflexivity].
    apply str_contains_spec in C. contradiction.
Qed.

(** X3.  [on_gui_page_show] raises in two cases only: the membership test
    on [__from] raises (the value is no string, list or dict), or the
    message is of another skill, its directive is not [True] and it has no
    [page] field, which gives [KeyError('page')].  When it raises, the
    timer, the flag and the bus are as before. *)
Theorem page_show_raises_exactly_when m w e :
  (outcome (on_gui_page_show m) w = Raise e <->
   py_in "BigscreenPlatform" (source_id m) = inl e
   \/ (not_from_self m
       /\ is_True (directive m) = false
       /\ msg_data m !! "page" = None
       /\ e = KeyError "page"))
  /\ (outcome (on_gui_page_show m) w = Raise e ->
      let w' := exec (on_gui_page_show m) w in
      timer_unchanged w w'
      /\ interaction_without_idle (self w')
         = interaction_without_idle (self w)
      /\ emitted w' = emitted w).
Proof.
  unfold outcome, exec, not_from_self.
  apply (page_show_cases
           (fun r =>
              (fst r = Raise e <->
               py_in "BigscreenPlatform" (source_id m) = inl e
               \/ (py_in "BigscreenPlatform" (source_id m) = inr false
                   /\ is_True (directive m) = false
                   /\ msg_data m !! "page" = None
                   /\ e = KeyError "page"))
              /\ (fst r = Raise e ->
                  timer_unchanged w (snd r)
                  /\ interaction_without_idle (self (snd r))
                     = interaction_without_idle (self w)
                  /\ emitted (snd r) = emitted w)));
    unfold not_from_self; cbn [fst snd].
  - intros e0 Hin. split; [|intros _; now repeat split].
    rewrite Hin. split.
    + intros [= ->]. now left.
    + intros [[= ->]|(H & _)]; [reflexivity|discriminate].
  - intros Hin. split; [|discriminate]. rewrite Hin. split; [discriminate|].
    intros [H|(H & _)]; discriminate.
  - intros Hin Hd. split; [|discriminate]. rewrite Hin, Hd.
    split; [discriminate|]. intros [H|(_ & H & _)]; discriminate.
  - intros Hin Ht Hp. split; [|intros _; now repeat split].
    rewrite Hin. split.
    + intros [= <-]. right. now repeat split.
    + intros [H|(_ & _ & _ & ->)]; [discriminate|reflexivity].
  - intros page Hin Ht Hp _. split; [|discriminate]. rewrite Hin, Hp.
    split; [discriminate|]. intros [H|(_ & _ & H & _)]; discriminate.
  - intros page Hin Ht Hp _. rewrite start_idle_event_exec. cbn [fst].
    split; [|discriminate]. rewrite Hin, Hp.
    split; [discriminate|]. intros [H|(_ & _ & H & _)]; discriminate.
Qed.

End Handlers.

(** ** Sequences of calls *)

Section Sequences.

(** X4.  A page shown by another skill with the directive [True] silences
    the skill, with or without a [page] field: the handler returns, stamps
    and remembers the message, removes every pending [IdleCheck] and emits
    nothing.  In the world it leaves, the timer's action emits nothing and
    a page interaction only records its source. *)
Theorem indefinite_override_silences_skill m w :
  not_from_self m ->
  directive m = PBool true ->
  let w' := exec (on_gui_page_show m) w in
  outcome (on_gui_page_show m) w = Return tt
  /\ override_idle (self w') = Some (m, clock w)
  /\ override_set_time (self w') = clock w
  /\ scheduled w' = other_entries w
  /\ emitted w' = emitted w
  /\ clock w' = clock w
  /\ (forall fired, close_current_window fired w' = (Return tt, w'))
  /\ (forall mi,
        exec (on_gui_page_interaction mi) w'
        = with_self (with_interaction_skill_id
                       (dict_get (msg_data mi) "skill_id")) w').
Proof.
  intros Hfrom Hd. cbn zeta. unfold outcome, exec.
  rewrite (page_show_indefinite m w Hfrom Hd). cbn [fst snd].
  repeat split.
Qed.

Lemma other_entries_twice w :
  filter (fun e => sch_name e <> "IdleCheck") (other_entries w)
  = other_entries w.
Proof.
  unfold other_entries. induction (scheduled w) as [|e l IH]; [reflexivity|].
  rewrite filter_cons. destruct (decide (sch_name e <> "IdleCheck")) as [N|N];
    [|exact IH].
  rewrite filter_cons. destruct (decide (sch_name e <> "IdleCheck"));
    [now rewrite IH|contradiction].
Qed.

(** X5.  [cancel_idle_event] is idempotent, keeps every scheduler entry of
    another name, and resets the guard: after it, with a clock that is not
    negative, any arm with an offset that is not negative goes through and
    leaves exactly its own action pending. *)
Theorem cancel_idle_event_resets_timer w :
  exec cancel_idle_event (exec cancel_idle_event w)
  = exec cancel_idle_event w
  /\ (forall e,
        e ∈ scheduled w -> sch_name e <> "IdleCheck" ->
        e ∈ scheduled (exec cancel_idle_event w))
  /\ (forall offset weak skid,
        (0 <= clock w)%Q ->
        (0 <= offset)%Z ->
        idle_checks (exec (start_idle_event offset weak skid)
                          (exec cancel_idle_event w))
        = [idle_entry offset skid w]).
Proof.
  split; [|split].
  - unfold exec. rewrite !cancel_idle_event_world. cbn [snd].
    change (mkWorld (with_idle_next 0 (self w)) (clock w)
              (filter (fun e => sch_name e <> "IdleCheck") (other_entries w))
              (emitted w) (listeners w)
            = mkWorld (with_idle_next 0 (self w)) (clock w) (other_entries w)
                (emitted w) (listeners w)).
    now rewrite other_entries_twice.
  - intros e He Hn. unfold exec. rewrite cancel_idle_event_world. cbn.
    unfold other_entries. apply list_elem_of_filter. now split.
  - intros offset weak skid Hc Ho.
    apply (start_idle_event_idle_checks offset skid weak
             (exec cancel_idle_event w)).
    unfold exec. rewrite cancel_idle_event_world.
    cbn [snd clock self idle_next with_idle_next].
    apply Qle_not_lt. rewrite Zle_Qle in Ho.
    change (inject_Z 0) with 0%Q in Ho. lra.
Qed.

(** X6.  After an authoritative arm that went through, a later arm whose
    offset is not smaller always goes through, whatever time has passed:
    the clock only moves forward, and the first call alone took half a
    second. *)
Theorem later_arm_not_shorter_goes_through o1 skid1 o2 weak2 skid2 d w :
  ~ (clock w + inject_Z o1 < idle_next (self w))%Q ->
  (0 <= d)%Q ->
  (o1 <= o2)%Z ->
  let w1 := elapse d (exec (start_idle_event o1 false skid1) w) in
  let w2 := exec (start_idle_event o2 weak2 skid2) w1 in
  clock w1 = (clock w + (1 # 2) + d)%Q
  /\ idle_checks w2 = [idle_entry o2 skid2 w1]
  /\ idle_next (self w2)
     = (if weak2 then clock w + inject_Z o1 else clock w1 + inject_Z o2)%Q.
Proof.
  intros Hg Hd Ho. cbn zeta.
  set (w1 := elapse d (exec (start_idle_event o1 false skid1) w)).
  assert (Ec : clock w1 = (clock w + (1 # 2) + d)%Q).
  { unfold w1, exec. now rewrite start_idle_event_accepted. }
  assert (En : idle_next (self w1) = (clock w + inject_Z o1)%Q).
  { unfold w1, exec. now rewrite start_idle_event_accepted. }
  assert (Hg2 : ~ (clock w1 + inject_Z o2 < idle_next (self w1))%Q).
  { rewrite Ec, En. apply Qle_not_lt.
    rewrite Zle_Qle in Ho. lra. }
  split; [exact Ec|]. split.
  - now apply start_idle_event_idle_checks.
  - unfold exec at 1. rewrite start_idle_event_accepted by exact Hg2.
    cbn. destruct weak2; [exact En|reflexivity].
Qed.

Lemma page_interaction_source mi w :
  interaction_skill_id (self (exec (on_gui_page_interaction mi) w))
  = dict_get (msg_data mi) "skill_id"
  /\ emitted (exec (on_gui_page_interaction mi) w) = emitted w.
Proof.
  split; [|apply page_interaction_emits_nothing].
  unfold exec. rewrite page_interaction_world. cbn zeta.
  destruct (interaction_without_idle (self w)); [reflexivity|].
  rewrite start_idle_event_exec. cbn [snd].
  now destruct (start_idle_event_frame 30 false
                  (dict_get (msg_data mi) "skill_id")
                  (with_self (with_interaction_skill_id
                                (dict_get (msg_data mi) "skill_id")) w))
    as (_ & _ & _ & _ & _ & _ & E & _).
Qed.

(** X12.  A close request names the last page interaction: after
    [on_gui_page_interaction] with a message, [close_window_by_event] emits
    one close event for that message's [skill_id], whatever the flag was,
    and clears the flag, so that the next page interaction arms the
    timer. *)
Theorem close_request_names_last_interaction mi mc w :
  let sid := dict_get (msg_data mi) "skill_id" in
  let w1 := exec (on_gui_page_interaction mi) w in
  let w2 := exec (close_window_by_event mc) w1 in
  emitted w2 = emitted w ++ [close_event sid]
  /\ interaction_without_idle (self w2) = false
  /\ timer_unchanged w1 w2
  /\ (forall mi2,
        ~ (clock w2 + inject_Z 30 < idle_next (self w2))%Q ->
        idle_checks (exec (on_gui_page_interaction mi2) w2)
        = [idle_entry 30 (dict_get (msg_data mi2) "skill_id") w2]).
Proof.
  cbn zeta.
  destruct (page_interaction_source mi w) as (Es & Ee).
  set (w1 := exec (on_gui_page_interaction mi) w) in *.
  set (w2 := exec (close_window_by_event mc) w1).
  assert (E2 : w2 = with_emitted
                      (emitted w1 ++ [close_event (interaction_skill_id (self w1))])
                      (with_self (with_interaction_without_idle false) w1))
    by reflexivity.
  assert (F : interaction_without_idle (self w2) = false) by reflexivity.
  split; [rewrite E2; cbn; now rewrite Ee, Es|]. split; [exact F|].
  split; [now split|].
  intros mi2 Hg. unfold exec. rewrite page_interaction_world. cbn zeta.
  rewrite F, start_idle_event_exec. cbn [snd].
  exact (start_idle_event_idle_checks 30
           (dict_get (msg_data mi2) "skill_id") false
           (with_self (with_interaction_skill_id
                         (dict_get (msg_data mi2) "skill_id")) w2) Hg).
Qed.

End Sequences.

(** ** Pages, interactions and silence *)

Section PagesAndSilence.

(** X13.  A page interaction supersedes the deadline of the page it flips:
    after a page shown with the default timer and any time [d], the
    interaction goes through the guard, the deadline is thirty seconds from
    the interaction and the one pending action names the interaction's
    skill. *)
Theorem interaction_rearms_from_its_own_time m page mi d w :
  not_from_self m ->
  msg_data m !! "page" = Some page ->
  py_truthy page = true ->
  isinstance_bool (directive m) = false ->
  ~ (clock w + inject_Z 30 < idle_next (self w))%Q ->
  (0 <= d)%Q ->
  let w1 := elapse d (exec (on_gui_page_show m) w) in
  let w2 := exec (on_gui_page_interaction mi) w1 in
  idle_next (self w1) = (clock w + inject_Z 30)%Q
  /\ clock w1 = (clock w + (1 # 2) + d)%Q
  /\ idle_next (self w2) = (clock w1 + inject_Z 30)%Q
  /\ idle_checks w2 = [idle_entry 30 (dict_get (msg_data mi) "skill_id") w1].
Proof.
  intros Hfrom Hp Ht Hb Hg Hd. cbn zeta.
  set (w1 := elapse d (exec (on_gui_page_show m) w)).
  set (sid := dict_get (msg_data mi) "skill_id").
  assert (E1 : w1 = elapse d
                      (snd (on_gui_page_show m w))) by reflexivity.
  rewrite (page_show_default_world m w page Hfrom Hp Ht Hb Hg) in E1.
  cbn [snd] in E1.
  assert (En : idle_next (self w1) = (clock w + inject_Z 30)%Q)
    by now rewrite E1.
  assert (Ec : clock w1 = (clock w + (1 # 2) + d)%Q) by now rewrite E1.
  assert (Ef : interaction_without_idle (self w1) = false) by now rewrite E1.
  assert (Hg1 : ~ (clock (with_self (with_interaction_skill_id sid) w1)
                   + inject_Z 30
                   < idle_next (self (with_self (with_interaction_skill_id sid)
                                                w1)))%Q).
  { change (~ (clock w1 + inject_Z 30 < idle_next (self w1))%Q).
    rewrite Ec, En. apply Qle_not_lt. lra. }
  split; [exact En|]. split; [exact Ec|].
  unfold exec. rewrite page_interaction_world. cbn zeta. fold sid.
  rewrite Ef, start_idle_event_exec. cbn [snd]. split.
  - unfold exec. now rewrite start_idle_event_accepted by exact Hg1.
  - exact (start_idle_event_idle_checks 30 sid false _ Hg1).
Qed.

Lemma fire_all_suppressed es w :
  interaction_without_idle (self w) = true ->
  Forall is_idle_check es ->
  fire_all es w = (Return tt, w).
Proof.
  intros F H. induction H as [|e es He _ IH]; [reflexivity|].
  destruct He as (_ & Hh & _). cbn [fire_all]. unfold bind, fire.
  rewrite Hh. cbn [invoke]. rewrite close_current_window_world, F. exact IH.
Qed.

Lemma quiet_step_suppressed s w :
  quiet_step s = true ->
  interaction_without_idle (self w) = true ->
  Forall is_idle_check (scheduled w) ->
  let w' := host_step s w in
  interaction_without_idle (self w') = true
  /\ Forall is_idle_check (scheduled w')
  /\ emitted w' = emitted w
  /\ idle_next (self w') = idle_next (self w)
  /\ (forall e, In e (scheduled w') -> In e (scheduled w)).
Proof.
  intros Hq F Hs. cbn zeta.
  destruct s as [| |[] m| |d]; try discriminate; cbn [host_step].
  - unfold exec. rewrite page_interaction_world, F. cbn. auto.
  - unfold exec. rewrite close_current_window_world, F. cbn. auto.
  - unfold exec, run_scheduler.
    rewrite fire_all_suppressed;
      [|exact F|now apply Forall_List_filter]. cbn.
    split; [exact F|]. split; [now apply Forall_List_filter|].
    split; [reflexivity|]. split; [reflexivity|].
    intros e He. now apply filter_In in He.
  - cbn. auto.
Qed.

(** X14.  While the flag is set, page interactions, the timer's action,
    scheduler passes and time change nothing a user can see: the flag stays
    set, nothing is emitted, the deadline stays and nothing new is
    scheduled. *)
Theorem suppressed_skill_stays_quiet steps w :
  forallb quiet_step steps = true ->
  interaction_without_idle (self w) = true ->
  Forall is_idle_check (scheduled w) ->
  let w' := host_run steps w in
  interaction_without_idle (self w') = true
  /\ emitted w' = emitted w
  /\ idle_next (self w') = idle_next (self w)
  /\ (forall e, In e (scheduled w') -> In e (scheduled w)).
Proof.
  cbn zeta. revert w. induction steps as [|s steps IH]; intros w Hq F Hs.
  - cbn. auto.
  - cbn [forallb] in Hq. apply andb_true_iff in Hq. destruct Hq as [Hq1 Hq].
    destruct (quiet_step_suppressed s w Hq1 F Hs) as (F1 & Hs1 & E1 & N1 & S1).
    cbn zeta in *. cbn [host_run fold_left].
    destruct (IH (host_step s w) Hq F1 Hs1) as (F2 & E2 & N2 & S2).
    unfold host_run in *.
    split; [exact F2|]. split; [now rewrite E2|]. split; [now rewrite N2|].
    auto.
Qed.

Lemma reachable_host_run steps w :
  Forall forward_step steps -> reachable w -> reachable (host_run steps w).
Proof.
  intros H. revert w. induction H as [|s steps Hs _ IH]; intros w Hw;
    [exact Hw|].
  cbn [host_run fold_left]. apply IH.
  destruct s; cbn [host_step].
  - now apply reach_initialize.
  - now apply reach_shutdown.
  - now apply reach_invoke.
  - now apply reach_scheduler.
  - now apply reach_elapse.
Qed.

Lemma sample_run_reachable : reachable (host_run sample_steps (init_world 0)).
Proof.
  apply reachable_host_run.
  - repeat constructor; vm_compute; discriminate.
  - apply reach_init. apply Qle_refl.
Qed.

End PagesAndSilence.

(** ** The further properties at concrete inputs *)

Section MoreInstances.

Lemma page_interaction_witness :
  interaction_without_idle (self page_on_show) = false
  /\ ~ (clock page_on_show + inject_Z 30
        < idle_next (self page_on_show))%Q
  /\ idle_checks (exec (on_gui_page_interaction flip_weather) page_on_show)
     = [idle_entry 30 (PStr "skill.weather") page_on_show].
Proof.
  split; [reflexivity|]. split; [vm_compute; discriminate|].
  destruct (page_interaction_records_and_rearms flip_weather page_on_show)
    as (_ & _ & _ & _ & _ & H).
  apply H; [reflexivity|vm_compute; discriminate].
Defined.

Lemma own_skill_witness :
  msg_data show_from_own_skill !! "__from"
  = Some (PStr "mycroft.BigscreenPlatform.home")
  /\ on_gui_page_show show_from_own_skill page_on_show
     = (Return tt, page_on_show).
Proof.
  split; [reflexivity|].
  apply (proj1 (page_show_of_own_skill_is_ignored
                  show_from_own_skill page_on_show
                  "mycroft.BigscreenPlatform.home" eq_refl)).
  exists "mycroft."%string, ".home"%string. reflexivity.
Defined.

Lemma page_show_raise_witness :
  not_from_self show_without_page
  /\ msg_data show_without_page !! "page" = None
  /\ outcome (on_gui_page_show show_without_page) page_on_show
     = Raise (KeyError "page").
Proof.
  split; [reflexivity|]. split; [reflexivity|].
  destruct (page_show_raises_exactly_when
              show_without_page page_on_show (KeyError "page")) as [[_ H] _].
  apply H. right. repeat split.
Defined.

Lemma indefinite_override_witness :
  not_from_self show_idle_true
  /\ directive show_idle_true = PBool true
  /\ pending_idle page_on_show = 1
  /\ scheduled (exec (on_gui_page_show show_idle_true) page_on_show)
     = other_entries page_on_show.
Proof.
  split; [reflexivity|]. split; [reflexivity|]. split; [reflexivity|].
  destruct (indefinite_override_silences_skill
              show_idle_true page_on_show eq_refl eq_refl)
    as (_ & _ & _ & H & _).
  exact H.
Defined.

Lemma cancel_witness :
  (0 <= clock page_on_show)%Q
  /\ (0 <= 30)%Z
  /\ idle_checks (exec (start_idle_event 30 true (PStr "a"))
                       (exec cancel_idle_event page_on_show))
     = [idle_entry 30 (PStr "a") page_on_show].
Proof.
  split; [vm_compute; discriminate|]. split; [lia|].
  destruct (cancel_idle_event_resets_timer page_on_show) as (_ & _ & H).
  apply H; [vm_compute; discriminate|lia].
Defined.

Lemma later_arm_witness :
  let w1 := elapse 10 (exec (start_idle_event 30 false (PStr "a"))
                            (init_world 0)) in
  ~ (clock (init_world 0) + inject_Z 30
     < idle_next (self (init_world 0)))%Q
  /\ (0 <= 10)%Q
  /\ (30 <= 30)%Z
  /\ idle_checks (exec (start_idle_event 30 false (PStr "b")) w1)
     = [idle_entry 30 (PStr "b") w1].
Proof.
  cbn zeta. split; [vm_compute; discriminate|].
  split; [vm_compute; discriminate|]. split; [lia|].
  destruct (later_arm_not_shorter_goes_through
              30 (PStr "a") 30 false (PStr "b") 10 (init_world 0))
    as (_ & H & _).
  - vm_compute. discriminate.
  - vm_compute. discriminate.
  - lia.
  - exact H.
Defined.

Lemma timer_bounds_witness :
  reachable (host_run sample_steps (init_world 0))
  /\ pending_idle (host_run sample_steps (init_world 0)) <= 1.
Proof.
  split; [exact sample_run_reachable|].
  exact (proj1 (reachable_timer_bounds _ sample_run_reachable)).
Defined.

Lemma scheduler_and_bus_witness :
  reachable (host_run sample_steps (init_world 0))
  /\ emitted (host_run sample_steps (init_world 0))
     = [close_event (PStr "skill.weather")]
  /\ Forall is_close_event (emitted (host_run sample_steps (init_world 0))).
Proof.
  split; [exact sample_run_reachable|]. split; [reflexivity|].
  exact (proj1 (proj2 (reachable_scheduler_and_bus _ sample_run_reachable))).
Defined.


Lemma has_show_page_witness :
  has_show_page (self page_on_show) = true
  /\ has_show_page (self (host_run sample_steps page_on_show)) = true.
Proof.
  split; [reflexivity|].
  apply (proj2 has_show_page_is_never_reset). reflexivity.
Defined.

Lemma interaction_rearm_witness :
  let w1 := elapse 10 page_on_show in
  not_from_self show_plain
  /\ idle_next (self (exec (on_gui_page_interaction flip_weather) w1))
     = (clock w1 + inject_Z 30)%Q.
Proof.
  cbn zeta. split; [reflexivity|].
  assert (Hg : ~ (clock (init_world 0) + inject_Z 30
                  < idle_next (self (init_world 0)))%Q)
    by (vm_compute; discriminate).
  assert (Hd : (0 <= 10)%Q) by (vm_compute; discriminate).
  destruct (interaction_rearms_from_its_own_time
              show_plain (PStr "weather") flip_weather 10 (init_world 0)
              eq_refl eq_refl eq_refl eq_refl Hg Hd)
    as (_ & _ & H & _).
  exact H.
Defined.

Lemma quiet_witness :
  let w := with_self (with_interaction_without_idle true) page_on_show in
  let steps := [ StepInvoke h_on_gui_page_interaction flip_weather;
                 StepElapse 40;
                 StepScheduler;
                 StepInvoke h_close_current_window
                   (mkMessage "IdleCheck" {[ "skill_id" := PStr "a" ]}) ] in
  pending_idle w = 1
  /\ emitted (host_run steps w) = emitted w.
Proof.
  cbn zeta. split; [reflexivity|].
  destruct (suppressed_skill_stays_quiet
              [ StepInvoke h_on_gui_page_interaction flip_weather;
                StepElapse 40;
                StepScheduler;
                StepInvoke h_close_current_window
                  (mkMessage "IdleCheck" {[ "skill_id" := PStr "a" ]}) ]
              (with_self (with_interaction_without_idle true) page_on_show))
    as (_ & H & _).
  - reflexivity.
  - reflexivity.
  - repeat constructor. now exists (PStr "skill.weather").
  - exact H.
Defined.

End MoreInstances.

(** ** A handler inside the sleep of [start_idle_event] *)

Section InsideTheSleep.

Lemma bind_return {A} (m : M unit) (k : M A) w w1 :
  m w = (Return tt, w1) -> (m ;; k) w = k w1.
Proof. intros H. unfold bind. now rewrite H. Qed.

Lemma start_idle_event_halves offset weak skid w :
  ~ (clock w + inject_Z offset < idle_next (self w))%Q ->
  start_idle_event offset weak skid w
  = (start_idle_event_before_sleep offset weak ;;
     sleep (1 # 2) ;;
     start_idle_event_after_sleep offset skid) w.
Proof.
  intros H. rewrite start_idle_event_accepted by exact H.
  destruct weak; reflexivity.
Qed.

(** X15.  A set flag does not exclude a pending close action.  The branch
    for the directive [True] takes no lock: when it runs while
    [start_idle_event] sleeps between its cancel and its schedule, the
    action is scheduled after the cancel and stays pending, with the flag
    set and the deadline cleared.  Fired with the flag still set, that
    action emits nothing.  Run one after the other, the two leave nothing
    pending. *)
Theorem override_inside_the_sleep offset weak skid m w :
  ~ (clock w + inject_Z offset < idle_next (self w))%Q ->
  not_from_self m ->
  directive m = PBool true ->
  let w' := exec (start_idle_event_before_sleep offset weak ;;
                  on_gui_page_show m ;;
                  sleep (1 # 2) ;;
                  start_idle_event_after_sleep offset skid) w in
  start_idle_event offset weak skid w
  = (start_idle_event_before_sleep offset weak ;;
     sleep (1 # 2) ;;
     start_idle_event_after_sleep offset skid) w
  /\ interaction_without_idle (self w') = true
  /\ idle_next (self w') = 0%Q
  /\ idle_checks w' = [idle_entry offset skid w]
  /\ (forall e, e ∈ idle_checks w' -> fire e w' = (Return tt, w'))
  /\ idle_checks (exec (start_idle_event offset weak skid ;;
                        on_gui_page_show m) w) = [].
Proof.
  intros Hg Hfrom Hd. cbn zeta.
  split; [now apply start_idle_event_halves|].
  set (W1 := mkWorld
               (if weak then self w
                else with_idle_next (clock w + inject_Z offset)%Q (self w))
               (clock w) (other_entries w) (emitted w) (listeners w)).
  assert (B1 : start_idle_event_before_sleep offset weak w = (Return tt, W1))
    by (subst W1; destruct weak; reflexivity).
  assert (P1 := page_show_indefinite m W1 Hfrom Hd).
  assert (E : exec (start_idle_event_before_sleep offset weak ;;
                    on_gui_page_show m ;;
                    sleep (1 # 2) ;;
                    start_idle_event_after_sleep offset skid) w
              = mkWorld
                  (mkSkill (Some (m, clock w)) true
                           (interaction_skill_id (self w)) 0 (clock w) true)
                  (clock w + (1 # 2))%Q
                  (filter (fun e => sch_name e <> "IdleCheck")
                          (other_entries w)
                   ++ [idle_entry offset skid w])
                  (emitted w) (listeners w)).
  { unfold exec.
    rewrite (bind_return _ _ _ _ B1), (bind_return _ _ _ _ P1).
    subst W1. destruct weak; reflexivity. }
  rewrite other_entries_twice in E. rewrite E.
  assert (Ei : idle_checks
                 (mkWorld
                    (mkSkill (Some (m, clock w)) true
                             (interaction_skill_id (self w)) 0 (clock w) true)
                    (clock w + (1 # 2))%Q
                    (other_entries w ++ [idle_entry offset skid w])
                    (emitted w) (listeners w))
               = [idle_entry offset skid w])
    by (unfold idle_checks; cbn [scheduled];
        apply idle_checks_others_entry).
  split; [reflexivity|]. split; [reflexivity|]. split; [exact Ei|]. split.
  - intros e He. rewrite Ei in He. apply list_elem_of_singleton in He.
    subst e. reflexivity.
  - unfold exec.
    rewrite (bind_return _ _ _ _ (start_idle_event_exec offset weak skid w)).
    rewrite (page_show_indefinite m _ Hfrom Hd). unfold idle_checks.
    cbn [snd scheduled]. apply idle_checks_other_entries.
Qed.

Lemma inside_the_sleep_witness :
  let w' := exec (start_idle_event_before_sleep 30 false ;;
                  on_gui_page_show show_idle_true ;;
                  sleep (1 # 2) ;;
                  start_idle_event_after_sleep 30 (PStr "a"))
                 (init_world 0) in
  ~ (clock (init_world 0) + inject_Z 30
     < idle_next (self (init_world 0)))%Q
  /\ not_from_self show_idle_true
  /\ directive show_idle_true = PBool true
  /\ interaction_without_idle (self w') = true
  /\ idle_checks w' = [idle_entry 30 (PStr "a") (init_world 0)].
Proof.
  cbn zeta.
  assert (Hg : ~ (clock (init_world 0) + inject_Z 30
                  < idle_next (self (init_world 0)))%Q)
    by (vm_compute; discriminate).
  destruct (override_inside_the_sleep 30 false (PStr "a") show_idle_true
              (init_world 0) Hg eq_refl eq_refl)
    as (_ & H1 & _ & H3 & _).
  split; [exact Hg|]. split; [reflexivity|]. split; [reflexivity|].
  split; [exact H1|exact H3].
Defined.

End InsideTheSleep.
